(** * The v0.dev card generator (main.ts): model and properties

    The script drives a browser through the Stagehand / Playwright API,
    keeps a cookie jar in [./cookies.json] and polls the page in two loops.
    Everything the script calls but does not define (the browser, the file
    system's failures, the clock's drift, [JSON.parse] / [JSON.stringify])
    is the environment: it is a parameter of the model, and every theorem
    holds for every environment.

    Modelling conventions.
    - An [async] function is a computation [M A]: a function from the
      [World] to an [Outcome] and the next world.  [Throw] is a rejected
      promise or a thrown [Error]; [try ... catch] is [try_catch].
    - Every call that leaves the script is appended to the world's [trace]
      together with the reply it got, so a property of behaviour
      ("the login flow is never entered") is a property of the trace.
    - The two [while] loops take a [fuel] argument and end in [OutOfFuel]
      when it runs out; the termination theorems show that a fixed amount
      of fuel always suffices.
    - Strings are byte strings: [length] counts bytes, [toLowerCase] and
      [trim] act on the ASCII range.  Cookie records are opaque ([any] in
      the source), and the cookie file is read at its declared type, an
      array: a file that holds other JSON is outside the model.
    - The [console] holds one entry for each call of [console.log] or
      [console.error], colours dropped.  A caught value among the
      arguments is printed as the host's [inspect] renders it.
    - The statements at the top of the module (two log lines,
      [dotenv.config()], the parse of the command line) run before [main]
      is called; what they leave behind is the host's [process_env] and
      [argv]. *)

From Stdlib Require Import ZArith String Ascii List Bool Lia.
From stdpp Require Import base gmap strings list pretty.

Open Scope string_scope.
Open Scope list_scope.
Open Scope Z_scope.

(** ** JavaScript string operations used by the script *)

Module JS.

(** The double-quote character, for selectors that contain one. *)
Definition dq : string := String "034" EmptyString.

(** [s.includes(sub)] *)
Fixpoint includes (s sub : string) : bool :=
  String.prefix sub s ||
  match s with
  | EmptyString => false
  | String _ rest => includes rest sub
  end.

Definition lower (c : ascii) : ascii :=
  let n := nat_of_ascii c in
  if ((65 <=? n) && (n <=? 90))%nat then ascii_of_nat (n + 32) else c.

(** [s.toLowerCase()] *)
Fixpoint toLowerCase (s : string) : string :=
  match s with
  | EmptyString => EmptyString
  | String c rest => String (lower c) (toLowerCase rest)
  end.

(** White space and line terminators: TAB, LF, VT, FF, CR, SP. *)
Definition is_space (c : ascii) : bool :=
  let n := nat_of_ascii c in
  ((9 <=? n) && (n <=? 13) || (n =? 32))%nat.

Fixpoint trimStart (s : string) : string :=
  match s with
  | EmptyString => EmptyString
  | String c rest => if is_space c then trimStart rest else s
  end.

Definition trimEnd (s : string) : string :=
  String.rev (trimStart (String.rev s)).

(** [s.trim()] *)
Definition trim (s : string) : string := trimEnd (trimStart s).

(** [s.length] *)
Definition length (s : string) : Z := Z.of_nat (String.length s).

(** Truthiness of a string: every string but the empty one. *)
Definition truthy (s : string) : bool :=
  match s with EmptyString => false | String _ _ => true end.

End JS.

(** ** Errors and outcomes *)

(** A JavaScript [Error], identified by its message. *)
Record Error := mkError { message : string }.

Inductive Outcome (A : Type) : Type :=
| Return (a : A)
| Throw (e : Error)
| OutOfFuel.
Arguments Return {A} a.
Arguments Throw {A} e.
Arguments OutOfFuel {A}.

(** An element description returned by Stagehand's [page.observe]. *)
Record ObserveResult := mkObserveResult {
  selector : string;
  description : string
}.

(** The parsed command line: [--flowerType] is the only option. *)
Record Argv := mkArgv { flowerType : string }.

(** ** Constants *)

Definition COOKIES_PATH : string := "./cookies.json".
Definition MAX_GENERATION_TIME : Z := 180000.

Definition LOGIN_INSTRUCTION : string :=
  "check if there are any sign in or login elements on the page".
Definition RETRY_SELECTOR : string :=
  "span.hidden.sm\:inline-block:text(" +:+ JS.dq +:+ "Retry" +:+ JS.dq +:+ ")".
Definition CODE_TEXT_SELECTOR : string :=
  "span:text(" +:+ JS.dq +:+ "Code" +:+ JS.dq +:+ ")".
Definition COPY_SELECTOR : string :=
  "button[aria-label=" +:+ JS.dq +:+ "Copy" +:+ JS.dq +:+ "]:has(svg.copy-icon)".
Definition CODE_TAB_ACTION : string := "click the Code tab in the top navigation".
Definition PROMPT_ACTION : string := "enter %prompt% into the prompt textarea".
Definition EMAIL_ACTION : string := "enter %email% into the email field".
Definition PASSWORD_ACTION : string := "enter %password% into the password field".

Definition ENOENT (path : string) : Error :=
  mkError ("ENOENT: no such file or directory, open '" +:+ path +:+ "'").
Definition LOGIN_FAILED : Error :=
  mkError "Login failed - still seeing login elements after attempt".
Definition GENERATION_TIMED_OUT : Error := mkError "Generation timed out".
Definition EXTRACT_FAILED : Error :=
  mkError "Failed to extract code after multiple attempts".

(** ** Calls that leave the script, and their replies *)

Section Interface.

(** A cookie record, as the browser hands it out ([any] in the source). *)
Variable Cookie : Type.

Inductive Call : Type :=
| fs_readFile (path encoding : string)
| fs_writeFile (path data : string)
| page_goto (url : string)
| page_observe (instruction : string)
| page_act (action : string) (variables : list (string * string))
| locator_waitFor (sel : string) (timeout : Z)
| locator_click (sel : string)
| getByRole_click (role name : string)
| locator_first_click (sel : string)
| context_grantPermissions (permissions : list string)
| clipboard_readText
| context_cookies
| context_addCookies (cookies : list Cookie)
| keyboard_press (key : string)
| setTimeout (ms : Z).

Inductive Reply : Type :=
| Rejected (e : Error)
| Resolved
| ResolvedText (s : string)
| ResolvedActions (actions : list ObserveResult)
| ResolvedCookies (cookies : list Cookie).

Inductive Event : Type := Ev (c : Call) (r : Reply).

(** The environment answers each call from the history of the run so far:
    whether the call fails, how long it takes, and what the page, the
    clipboard and the browser's cookie store hold at that point. *)
Record Environment := mkEnvironment {
  rejects : list Event -> Call -> option Error;
  latency : list Event -> Call -> N;
  observed : list Event -> list ObserveResult;
  clipboard : list Event -> string;
  browser_cookies : list Event -> list Cookie
}.

Record World := mkWorld {
  files : gmap string string;   (* path -> contents *)
  clock : Z;                    (* milliseconds *)
  trace : list Event;           (* calls made so far, oldest first *)
  console : list string         (* lines printed so far, oldest first *)
}.

End Interface.

Arguments fs_readFile {Cookie}.
Arguments fs_writeFile {Cookie}.
Arguments page_goto {Cookie}.
Arguments page_observe {Cookie}.
Arguments page_act {Cookie}.
Arguments locator_waitFor {Cookie}.
Arguments locator_click {Cookie}.
Arguments getByRole_click {Cookie}.
Arguments locator_first_click {Cookie}.
Arguments context_grantPermissions {Cookie}.
Arguments clipboard_readText {Cookie}.
Arguments context_cookies {Cookie}.
Arguments context_addCookies {Cookie}.
Arguments keyboard_press {Cookie}.
Arguments setTimeout {Cookie}.
Arguments Rejected {Cookie}.
Arguments Resolved {Cookie}.
Arguments ResolvedText {Cookie}.
Arguments ResolvedActions {Cookie}.
Arguments ResolvedCookies {Cookie}.
Arguments Ev {Cookie}.
Arguments mkEnvironment {Cookie}.
Arguments rejects {Cookie}.
Arguments latency {Cookie}.
Arguments observed {Cookie}.
Arguments clipboard {Cookie}.
Arguments browser_cookies {Cookie}.
Arguments mkWorld {Cookie}.
Arguments files {Cookie}.
Arguments clock {Cookie}.
Arguments trace {Cookie}.
Arguments console {Cookie}.

(** What the script is run on: the JSON library, the environment, and the
    process's environment variables and command line. *)
Class Host (Cookie : Type) := mkHost {
  (** [JSON.parse] at the type the script uses it at ([any[]]); a
      [SyntaxError] is [inl]. *)
  JSON_parse : string -> Error + list Cookie;
  (** [JSON.stringify(value, null, indent)]. *)
  JSON_stringify : list Cookie -> Z -> string;
  (** How [console.log] and [console.error] print an argument that is a
      caught value ([util.inspect]; for an [Error], its stack: the name,
      the message and the frames). *)
  inspect : Error -> string;
  env : Environment Cookie;
  (** [process.env] after [dotenv.config()]. *)
  process_env : gmap string string;
  argv : Argv
}.

Section Script.

Context {Cookie : Type} {host : Host Cookie}.

(** *** The monad of the script *)

Definition M (A : Type) : Type := World Cookie -> Outcome A * World Cookie.

Definition ret {A} (a : A) : M A := fun w => (Return a, w).

Definition throw {A} (e : Error) : M A := fun w => (Throw e, w).

Definition out_of_fuel {A} : M A := fun w => (OutOfFuel, w).

Definition bind {A B} (m : M A) (k : A -> M B) : M B := fun w =>
  match m w with
  | (Return a, w') => k a w'
  | (Throw e, w') => (Throw e, w')
  | (OutOfFuel, w') => (OutOfFuel, w')
  end.

Definition try_catch {A} (m : M A) (handler : Error -> M A) : M A := fun w =>
  match m w with
  | (Return a, w') => (Return a, w')
  | (Throw e, w') => handler e w'
  | (OutOfFuel, w') => (OutOfFuel, w')
  end.


Notation "x <- m ;; k" := (bind m (fun x => k))
  (at level 100, m at next level, right associativity).
Notation "m ;; k" := (bind m (fun _ => k))
  (at level 100, right associativity).

(** *** Primitives *)

(** The world after call [c] got reply [r]; [wait] is the time the call
    is bound to take on top of the environment's latency. *)
Definition record (c : Call Cookie) (r : Reply Cookie) (wait : Z)
    (fs : gmap string string) (w : World Cookie) : World Cookie :=
  {| files := fs;
     clock := clock w + wait + Z.of_N (latency env (trace w) c);
     trace := trace w ++ [Ev c r];
     console := console w |}.

(** A call to the browser: rejected or resolved as the environment says. *)
Definition ask {A} (c : Call Cookie) (value : list (Event Cookie) -> A)
    (reply : A -> Reply Cookie)
    : M A := fun w =>
  match rejects env (trace w) c with
  | Some e => (Throw e, record c (Rejected e) 0 (files w) w)
  | None =>
      let a := value (trace w) in
      (Return a, record c (reply a) 0 (files w) w)
  end.

Definition invoke (c : Call Cookie) : M unit :=
  ask c (fun _ => tt) (fun _ => Resolved).

(** [fs.readFile(path, encoding)]: fails when the environment says so or
    when there is no such file. *)
Definition readFile (path encoding : string) : M string := fun w =>
  let c := fs_readFile path encoding in
  match rejects env (trace w) c with
  | Some e => (Throw e, record c (Rejected e) 0 (files w) w)
  | None =>
      match files w !! path with
      | Some data => (Return data, record c (ResolvedText data) 0 (files w) w)
      | None =>
        (Throw (ENOENT path), record c (Rejected (ENOENT path)) 0 (files w) w)
      end
  end.

(** [fs.writeFile(path, data)]: replaces the file's contents. *)
Definition writeFile (path data : string) : M unit := fun w =>
  let c := fs_writeFile path data in
  match rejects env (trace w) c with
  | Some e => (Throw e, record c (Rejected e) 0 (files w) w)
  | None => (Return tt, record c Resolved 0 (<[path := data]> (files w)) w)
  end.

(** [await new Promise(resolve => setTimeout(resolve, ms))]: never
    rejects, and takes at least [ms]. *)
Definition sleep (ms : Z) : M unit := fun w =>
  (Return tt, record (setTimeout ms) Resolved ms (files w) w).

(** [Date.now()] *)
Definition Date_now : M Z := fun w => (Return (clock w), w).

(** [console.log] / [console.error] (colours dropped): one entry for a
    call, its arguments separated by a space. *)
Definition print (line : string) (w : World Cookie) : World Cookie :=
  {| files := files w; clock := clock w; trace := trace w;
     console := console w ++ [line] |}.

Definition console_log (line : string) : M unit := fun w =>
  (Return tt, print line w).

Definition observe (instruction : string) : M (list ObserveResult) :=
  ask (page_observe instruction) (observed env) ResolvedActions.

Definition act (action : string) (variables : list (string * string)) : M unit :=
  invoke (page_act action variables).

Definition cookies_of_context : M (list Cookie) :=
  ask context_cookies (browser_cookies env) ResolvedCookies.

Definition readText : M string :=
  ask clipboard_readText (clipboard env) ResolvedText.

(** *** loadCookies, saveCookies (main.ts 39-59) *)

Definition parse (data : string) : M (list Cookie) :=
  match JSON_parse data with
  | inr v => ret v
  | inl e => throw e
  end.

Definition loadCookies : M (list Cookie) :=
  console_log "🍪 Attempting to load cookies from disk..." ;;
  try_catch
    (cookiesData <- readFile COOKIES_PATH "utf-8" ;;
     console_log "✅ Successfully loaded cookies" ;;
     parse cookiesData)
    (fun _ =>
     console_log "⚠️ No cookies found on disk" ;;
     ret []).

Definition saveCookies (cookies : list Cookie) : M unit :=
  console_log "💾 Saving cookies to disk..." ;;
  writeFile COOKIES_PATH (JSON_stringify cookies 2) ;;
  console_log "✅ Cookies saved successfully".

(** *** checkAndLogin (main.ts 70-113) *)

(** [actions.some(a => a.description.toLowerCase().includes('sign in') ||
    a.description.toLowerCase().includes('login'))] *)
Definition mentions_login (action : ObserveResult) : bool :=
  JS.includes (JS.toLowerCase (description action)) "sign in" ||
  JS.includes (JS.toLowerCase (description action)) "login".

Definition some_login (actions : list ObserveResult) : bool :=
  existsb mentions_login actions.

(** [process.env.NAME] as a condition: set and not empty. *)
Definition env_truthy (name : string) : bool :=
  match process_env !! name with
  | Some v => JS.truthy v
  | None => false
  end.

(** [process.env.NAME] as a value ([undefined] never reaches a call: both
    uses are guarded by [env_truthy]). *)
Definition env_value (name : string) : string :=
  default EmptyString (process_env !! name).

Definition checkAndLogin : M bool :=
  actions <- observe LOGIN_INSTRUCTION ;;
  let needsLogin := some_login actions in
  if needsLogin then
    act "click the sign in button" [] ;;
    act "click sign in with github" [] ;;
    if env_truthy "GITHUB_EMAIL" && env_truthy "GITHUB_PASSWORD" then
      act EMAIL_ACTION [("email", env_value "GITHUB_EMAIL")] ;;
      act PASSWORD_ACTION [("password", env_value "GITHUB_PASSWORD")] ;;
      act "click the sign in button" [] ;;
      sleep 2000 ;;
      postLoginActions <- observe LOGIN_INSTRUCTION ;;
      let stillNeedsLogin := some_login postLoginActions in
      if negb stillNeedsLogin then
        cookies <- cookies_of_context ;;
        saveCookies cookies ;;
        ret true
      else throw LOGIN_FAILED
    else ret false
  else ret false.

(** *** waitForGeneration (main.ts 114-128) *)

(** One pass through the [try] of the loop body: [Some true] is
    [return true], [None] falls through to the next iteration. *)
Definition poll : M (option bool) :=
  try_catch
    (invoke (locator_waitFor RETRY_SELECTOR 5000) ;;
     ret (Some true))
    (fun _ =>
     sleep 5000 ;;
     ret None).

Fixpoint waitForGeneration_loop (fuel : nat) (startTime : Z) : M bool :=
  match fuel with
  | O => out_of_fuel
  | S fuel' =>
      now <- Date_now ;;
      if now - startTime <? MAX_GENERATION_TIME then
        console_log "🔍 Waiting for generation to complete..." ;;
        r <- poll ;;
        match r with
        | Some b => ret b
        | None => waitForGeneration_loop fuel' startTime
        end
      else throw GENERATION_TIMED_OUT
  end.

Definition waitForGeneration (fuel : nat) : M bool :=
  startTime <- Date_now ;;
  waitForGeneration_loop fuel startTime.

(** *** extractCode (main.ts 130-183) *)

Definition maxAttempts : Z := 5.

(** The nested [try] of lines 142-152. *)
Definition click_code_tab : M unit :=
  try_catch
    (invoke (locator_click CODE_TEXT_SELECTOR))
    (fun _ =>
     try_catch
       (invoke (getByRole_click "tab" "Code"))
       (fun _ => act CODE_TAB_ACTION [])).

(** The condition of lines 163-170, nested as in the source. *)
Definition has_code_keyword (codeContent : string) : bool :=
  JS.includes codeContent "import" ||
  JS.includes codeContent "function" ||
  JS.includes codeContent "const" ||
  JS.includes codeContent "class" ||
  JS.includes codeContent "export" ||
  JS.includes codeContent "interface" ||
  JS.includes codeContent "type".

Definition non_blank (codeContent : string) : bool :=
  JS.truthy codeContent && (0 <? JS.length (JS.trim codeContent)).

(** One pass through the [try] of the loop body: [Some files] is
    [return files], [None] falls through to the sleep. *)
Definition attempt (attempts : Z) : M (option (gmap string string)) :=
  try_catch
    (console_log ("🔍 Attempt " +:+ pretty (attempts + 1) +:+ " of " +:+
                  pretty maxAttempts) ;;
     console_log "🔍 Clicking the Code tab" ;;
     click_code_tab ;;
     invoke (context_grantPermissions ["clipboard-read"; "clipboard-write"]) ;;
     invoke (locator_first_click COPY_SELECTOR) ;;
     sleep 500 ;;
     codeContent <- readText ;;
     if non_blank codeContent then
       if has_code_keyword codeContent then
         ret (Some {[ "code.tsx" := codeContent ]})
       else ret None
     else ret None)
    (fun error =>
     console_log ("Code extraction attempt failed: " +:+ inspect error) ;;
     ret None).

Fixpoint extractCode_loop (fuel : nat) (attempts : Z)
    : M (gmap string string) :=
  match fuel with
  | O => out_of_fuel
  | S fuel' =>
      if attempts <? maxAttempts then
        r <- attempt attempts ;;
        match r with
        | Some files => ret files
        | None =>
            sleep 2000 ;;
            extractCode_loop fuel' (attempts + 1)
        end
      else throw EXTRACT_FAILED
  end.

Definition extractCode (fuel : nat) : M (gmap string string) :=
  console_log "🔍 Extracting code..." ;;
  extractCode_loop fuel 0.

(** *** main (main.ts 185-245) *)

(** The template string of line 217. *)
Definition prompt_for (flower : string) : string :=
  "Create a beautiful " +:+ flower +:+
  " themed Valentine's day card with a romantic message. Make sure that it is only a single file.".

Definition main (fuel : nat) : M (gmap string string) :=
  let flowerType := flowerType argv in
  console_log ("🌸 Generating design for: " +:+ flowerType) ;;
  try_catch
    (console_log "🌐 Navigating to v0.dev..." ;;
     invoke (page_goto "https://v0.dev") ;;
     console_log "✅ Loaded V0.dev" ;;
     cookies <- loadCookies ;;
     (if 0 <? Z.of_nat (List.length cookies)
      then invoke (context_addCookies cookies)
      else ret tt) ;;
     (if Z.of_nat (List.length cookies) =? 0
      then
        needsLogin <- checkAndLogin ;;
        if (needsLogin : bool)
        then console_log "✅ Successfully logged in"
        else ret tt
      else ret tt) ;;
     let prompt := prompt_for flowerType in
     act PROMPT_ACTION [("prompt", prompt)] ;;
     invoke (keyboard_press "Enter") ;;
     console_log "⏳ Waiting for generation..." ;;
     waitForGeneration fuel ;;
     console_log "✅ Generation complete" ;;
     files <- extractCode fuel ;;
     console_log "✅ Code extracted successfully" ;;
     latestCookies <- cookies_of_context ;;
     saveCookies latestCookies ;;
     ret files)
    (fun error =>
     console_log ("❌ Error: " +:+ inspect error) ;;
     throw error).

End Script.

Notation "x <- m ;; k" := (bind m (fun x => k))
  (at level 100, m at next level, right associativity).
Notation "m ;; k" := (bind m (fun _ => k))
  (at level 100, right associativity).

(** * Vocabulary for traces *)

Section Vocabulary.

Context {Cookie : Type} {host : Host Cookie}.

(** ** Calls of a computation *)

(** Every call the computation [m] makes is [allowed]. *)
Definition confined {A : Type} (allowed : Event Cookie -> bool) (m : M A)
    : Prop :=
  forall w : World Cookie,
    exists d : list (Event Cookie),
      trace (snd (m w)) = trace w ++ d /\ forallb allowed d = true.

(** ** The cookie file *)

(** An array is JSON-serializable when the text [saveCookies] writes for it
    parses back to it. *)
Definition JSON_serializable (cookies : list Cookie) : Prop :=
  JSON_parse (JSON_stringify cookies 2) = inr cookies.

(** The read of the cookie file. *)
Definition cookie_read : Call Cookie := fs_readFile COOKIES_PATH "utf-8".

(** What is in the cookie file for a reader that comes after the calls
    [h]: the parsed array, or the empty array when there is none to be
    had. *)
Definition cookies_on_disk (h : list (Event Cookie))
    (fs : gmap string string) : list Cookie :=
  match rejects env h cookie_read,
        fs !! COOKIES_PATH with
  | None, Some cookiesData =>
      match JSON_parse cookiesData with
      | inr cookies => cookies
      | inl _ => []
      end
  | _, _ => []
  end.

(** ** The login flow *)

(** What the resolved [page.observe] calls of a run reported, oldest
    first. *)
Fixpoint observations (events : list (Event Cookie))
    : list (list ObserveResult) :=
  match events with
  | [] => []
  | Ev (page_observe _) (ResolvedActions actions) :: rest =>
      actions :: observations rest
  | _ :: rest => observations rest
  end.

(** The two clicks that lead to the GitHub login form. *)
Definition sign_in_click : Call Cookie := page_act "click the sign in button" [].
Definition github_click : Call Cookie := page_act "click sign in with github" [].

(** A resolved observation of the page for login elements. *)
Definition seen (actions : list ObserveResult) : Event Cookie :=
  Ev (page_observe LOGIN_INSTRUCTION) (ResolvedActions actions).

(** The calls between the two observations of a login that goes through
    (main.ts 81-94): the two sign-in clicks, the credentials of the
    process's environment, the click that submits them and the wait of
    2000 ms. *)
Definition login_steps : list (Event Cookie) :=
  [Ev sign_in_click Resolved;
   Ev github_click Resolved;
   Ev (page_act EMAIL_ACTION [("email", env_value "GITHUB_EMAIL")]) Resolved;
   Ev (page_act PASSWORD_ACTION [("password", env_value "GITHUB_PASSWORD")])
      Resolved;
   Ev sign_in_click Resolved;
   Ev (setTimeout 2000) Resolved].

(** The browser's cookies read, and their JSON text written to the cookie
    file (main.ts 105-106). *)
Definition saved_jar (cookies : list Cookie) : list (Event Cookie) :=
  [Ev context_cookies (ResolvedCookies cookies);
   Ev (fs_writeFile COOKIES_PATH (JSON_stringify cookies 2)) Resolved].

(** Typing the e-mail address or the password into the page. *)
Definition is_credentials (ev : Event Cookie) : bool :=
  match ev with
  | Ev (page_act action _) _ =>
      String.eqb action EMAIL_ACTION || String.eqb action PASSWORD_ACTION
  | _ => false
  end.

(** A write to a file, carried out or not. *)
Definition is_write (ev : Event Cookie) : bool :=
  match ev with
  | Ev (fs_writeFile _ _) _ => true
  | _ => false
  end.

(** A step of the login flow: an observation of the page, a click on a
    sign-in button, or the typing of a credential. *)
Definition is_login_step (ev : Event Cookie) : bool :=
  match ev with
  | Ev (page_observe _) _ => true
  | Ev (page_act action _) _ =>
      String.eqb action "click the sign in button"
      || String.eqb action "click sign in with github"
      || String.eqb action EMAIL_ACTION
      || String.eqb action PASSWORD_ACTION
  | _ => false
  end.

(** ** The wait for the generation *)

(** The poll of the page for the marker of a finished generation. *)
Definition marker_poll : Call Cookie := locator_waitFor RETRY_SELECTOR 5000.

(** The events of an iteration of [waitForGeneration] that did not find
    the marker: the poll is rejected with [e], then the loop sleeps for
    5000 ms. *)
Definition missed (e : Error) : list (Event Cookie) :=
  [Ev marker_poll (Rejected e); Ev (setTimeout 5000) Resolved].

(** ** The extraction of the code *)

(** The three ways of clicking the Code tab. *)
Definition text_click : Call Cookie := locator_click CODE_TEXT_SELECTOR.
Definition role_click : Call Cookie := getByRole_click "tab" "Code".
Definition act_click : Call Cookie := page_act CODE_TAB_ACTION [].

Definition is_text_click (ev : Event Cookie) : bool :=
  match ev with
  | Ev (locator_click sel) _ => String.eqb sel CODE_TEXT_SELECTOR
  | _ => false
  end.

Definition is_role_click (ev : Event Cookie) : bool :=
  match ev with
  | Ev (getByRole_click role name) _ =>
      String.eqb role "tab" && String.eqb name "Code"
  | _ => false
  end.

Definition is_act_click (ev : Event Cookie) : bool :=
  match ev with
  | Ev (page_act action _) _ => String.eqb action CODE_TAB_ACTION
  | _ => false
  end.

Definition is_tab_click (ev : Event Cookie) : bool :=
  is_text_click ev || is_role_click ev || is_act_click ev.

(** The sleep between two attempts of [extractCode]. *)
Definition is_pause (ev : Event Cookie) : bool :=
  match ev with
  | Ev (setTimeout ms) _ => ms =? 2000
  | _ => false
  end.

Definition pause : Event Cookie := Ev (setTimeout 2000) Resolved.

(** The clicks on the Code tab of one attempt, in the order of the
    fallback: a strategy appears only after every earlier one was
    rejected, and nothing follows a strategy that worked. *)
Definition fallback_order (clicks : list (Event Cookie)) : Prop :=
  match clicks with
  | [Ev c1 Resolved] => c1 = text_click
  | [Ev c1 (Rejected _); Ev c2 Resolved] =>
      c1 = text_click /\ c2 = role_click
  | [Ev c1 (Rejected _); Ev c2 (Rejected _); Ev c3 r3] =>
      c1 = text_click /\ c2 = role_click /\ c3 = act_click
      /\ (r3 = Resolved \/ exists e3, r3 = Rejected e3)
  | _ => False
  end.

(** The events of one attempt of [extractCode]: the clicks on the Code
    tab, in the order of the fallback, and then calls that are neither a
    click on the tab nor the sleep between attempts. *)
Definition one_attempt (events : list (Event Cookie)) : Prop :=
  exists clicks rest : list (Event Cookie),
    events = clicks ++ rest
    /\ fallback_order clicks
    /\ forallb (fun ev => negb (is_tab_click ev) && negb (is_pause ev)) rest
         = true.

(** The substrings that make a clipboard text pass for code. *)
Definition code_keywords : list string :=
  ["import"; "function"; "const"; "class"; "export"; "interface"; "type"].

(** The filter of [extractCode] on the clipboard's text. *)
Definition accepted (codeContent : string) : bool :=
  non_blank codeContent && has_code_keyword codeContent.

(** ** The stages of main *)

(** The navigation to the site. *)
Definition navigation : Call Cookie := page_goto "https://v0.dev".

(** The submission of the prompt for the flower of the command line. *)
Definition submission : Call Cookie :=
  page_act PROMPT_ACTION [("prompt", prompt_for (flowerType argv))].

(** The submission of a prompt to the page. *)
Definition is_prompt (ev : Event Cookie) : bool :=
  match ev with
  | Ev (page_act action _) _ => String.eqb action PROMPT_ACTION
  | _ => false
  end.


(** Neither a step of the login flow nor the submission of a prompt. *)
Definition quiet (ev : Event Cookie) : bool :=
  negb (is_login_step ev) && negb (is_prompt ev).

(** The steps of [main] that follow the login stage (main.ts 216-239). *)
Definition generate (fuel : nat) : M (gmap string string) :=
  act PROMPT_ACTION [("prompt", prompt_for (flowerType argv))] ;;
  invoke (keyboard_press "Enter") ;;
  console_log "⏳ Waiting for generation..." ;;
  waitForGeneration fuel ;;
  console_log "✅ Generation complete" ;;
  files <- extractCode fuel ;;
  console_log "✅ Code extracted successfully" ;;
  latestCookies <- cookies_of_context ;;
  saveCookies latestCookies ;;
  ret files.

(** ** Failures, credentials and files *)

(** A write to a file that the file system refused. *)
Definition is_failed_write (ev : Event Cookie) : bool :=
  match ev with
  | Ev (fs_writeFile _ _) (Rejected _) => true
  | _ => false
  end.

(** The errors of the rejected calls of a run, oldest first. *)
Fixpoint rejections (events : list (Event Cookie)) : list Error :=
  match events with
  | [] => []
  | Ev _ (Rejected e) :: rest => e :: rejections rest
  | _ :: rest => rejections rest
  end.

(** The calls of a run, without their replies. *)
Definition calls (events : list (Event Cookie)) : list (Call Cookie) :=
  map (fun ev => match ev with Ev c _ => c end) events.

(** The number of prompts a run submitted. *)
Definition prompts (events : list (Event Cookie)) : nat :=
  length (List.filter is_prompt events).

(** A bound on the time the environment takes to answer a call. *)
Definition answers_within (limit : Z) : Prop :=
  forall (h : list (Event Cookie)) (c : Call Cookie),
    Z.of_N (latency env h c) <= limit.

(** ** Texts *)

(** The text holds a character that is not white space. *)
Fixpoint has_ink (s : string) : bool :=
  match s with
  | EmptyString => false
  | String c rest => negb (JS.is_space c) || has_ink rest
  end.

(** ** The outcome of a run *)

(** Not a step of the login flow, not a prompt, not a write. *)
Definition calm (ev : Event Cookie) : bool :=
  quiet ev && negb (is_write ev).

(** The computation [m] changes no file, or only the contents of the file
    at [path]. *)
Definition writes_only {A : Type} (path : string) (m : M A) : Prop :=
  forall w : World Cookie,
    files (snd (m w)) = files w
    \/ exists data : string, files (snd (m w)) = <[path := data]> (files w).

(** What a run that got to the prompt ends in: the code under 'code.tsx'
    after the save of the browser's cookies; or an error, which is that of
    the refused write if a write was refused. *)
Definition verdict (o : Outcome (gmap string string))
    (d : list (Event Cookie)) (fs : gmap string string) : Prop :=
  match o with
  | Return result =>
      exists (codeContent : string) (cookies : list Cookie)
             (before : list (Event Cookie)),
        result = {[ "code.tsx" := codeContent ]}
        /\ accepted codeContent = true
        /\ d = before ++
               [Ev context_cookies (ResolvedCookies cookies);
                Ev (fs_writeFile COOKIES_PATH (JSON_stringify cookies 2))
                   Resolved]
        /\ existsb is_failed_write d = false
        /\ fs !! COOKIES_PATH = Some (JSON_stringify cookies 2)
  | Throw e =>
      existsb is_failed_write d = true ->
      exists path data : string,
        last d = Some (Ev (fs_writeFile path data) (Rejected e))
  | OutOfFuel => False
  end.

End Vocabulary.

(** * A sample host

    A small JSON printer and parser and a scripted environment, on which
    the model is run below. *)

Module Sample.

(** A JSON document with integer numbers; a cookie is any such
    document. *)
#[local] Unset Elimination Schemes.
Inductive json : Type :=
| JNull
| JBool (b : bool)
| JNumber (n : Z)
| JString (s : string)
| JArray (items : list json)
| JObject (members : list (string * json)).
#[local] Set Elimination Schemes.

Definition newline : string := String "010" EmptyString.
Definition backslash : ascii := "092"%char.
Definition quote_char : ascii := "034"%char.

Fixpoint spaces (n : nat) : string :=
  match n with
  | O => EmptyString
  | S n' => String " " (spaces n')
  end.

Fixpoint join (sep : string) (parts : list string) : string :=
  match parts with
  | [] => EmptyString
  | [part] => part
  | part :: rest => part +:+ sep +:+ join sep rest
  end.

Fixpoint escape (s : string) : string :=
  match s with
  | EmptyString => EmptyString
  | String c rest =>
      if Ascii.eqb c quote_char then String backslash (String quote_char (escape rest))
      else if Ascii.eqb c backslash then String backslash (String backslash (escape rest))
      else if Ascii.eqb c "010" then String backslash (String "n" (escape rest))
      else String c (escape rest)
  end.

Definition quote (s : string) : string :=
  String quote_char (escape s) +:+ JS.dq.

(** The layout of [JSON.stringify(value, null, step)] for a positive
    [step]. *)
Fixpoint print (step indent : nat) (v : json) : string :=
  match v with
  | JNull => "null"
  | JBool true => "true"
  | JBool false => "false"
  | JNumber n => pretty n
  | JString s => quote s
  | JArray [] => "[]"
  | JArray items =>
      "[" +:+ newline +:+
      join ("," +:+ newline)
        (map (fun item => spaces (indent + step) +:+ print step (indent + step) item)
           items) +:+
      newline +:+ spaces indent +:+ "]"
  | JObject [] => "{}"
  | JObject members =>
      "{" +:+ newline +:+
      join ("," +:+ newline)
        (map (fun member =>
                spaces (indent + step) +:+ quote (fst member) +:+ ": " +:+
                print step (indent + step) (snd member))
           members) +:+
      newline +:+ spaces indent +:+ "}"
  end.

Fixpoint skip (s : string) : string :=
  match s with
  | String c rest => if JS.is_space c then skip rest else s
  | EmptyString => EmptyString
  end.

(** The characters of a string literal, after its opening quote. *)
Fixpoint characters (s : string) : option (string * string) :=
  match s with
  | EmptyString => None
  | String c rest =>
      if Ascii.eqb c quote_char then Some (EmptyString, rest)
      else if Ascii.eqb c backslash then
        match rest with
        | String e rest' =>
            match characters rest' with
            | Some (text, after) =>
                Some (String (if Ascii.eqb e "n" then "010"%char else e) text, after)
            | None => None
            end
        | EmptyString => None
        end
      else
        match characters rest with
        | Some (text, after) => Some (String c text, after)
        | None => None
        end
  end.

Definition digit (c : ascii) : option Z :=
  let n := nat_of_ascii c in
  if ((48 <=? n) && (n <=? 57))%nat then Some (Z.of_nat n - 48) else None.

Fixpoint digits (acc : Z) (s : string) : Z * string :=
  match s with
  | String c rest =>
      match digit c with
      | Some d => digits (10 * acc + d) rest
      | None => (acc, s)
      end
  | EmptyString => (acc, s)
  end.

Definition number (s : string) : option (Z * string) :=
  match s with
  | String "-" (String c rest) =>
      match digit c with
      | Some d => let '(n, after) := digits d rest in Some (- n, after)
      | None => None
      end
  | String c rest =>
      match digit c with
      | Some d => Some (digits d rest)
      | None => None
      end
  | EmptyString => None
  end.

Fixpoint value (fuel : nat) (s : string) {struct fuel}
    : option (json * string) :=
  match fuel with
  | O => None
  | S fuel' =>
      match skip s with
      | String "n" (String "u" (String "l" (String "l" after))) =>
          Some (JNull, after)
      | String "t" (String "r" (String "u" (String "e" after))) =>
          Some (JBool true, after)
      | String "f" (String "a" (String "l" (String "s" (String "e" after)))) =>
          Some (JBool false, after)
      | String "[" rest =>
          match skip rest with
          | String "]" after => Some (JArray [], after)
          | _ =>
              match elements fuel' rest with
              | Some (items, after) => Some (JArray items, after)
              | None => None
              end
          end
      | String "{" rest =>
          match skip rest with
          | String "}" after => Some (JObject [], after)
          | _ =>
              match members fuel' rest with
              | Some (fields, after) => Some (JObject fields, after)
              | None => None
              end
          end
      | String c rest =>
          if Ascii.eqb c quote_char then
            match characters rest with
            | Some (text, after) => Some (JString text, after)
            | None => None
            end
          else
            match number (String c rest) with
            | Some (n, after) => Some (JNumber n, after)
            | None => None
            end
      | EmptyString => None
      end
  end
with elements (fuel : nat) (s : string) {struct fuel}
    : option (list json * string) :=
  match fuel with
  | O => None
  | S fuel' =>
      match value fuel' s with
      | Some (item, rest) =>
          match skip rest with
          | String "," rest' =>
              match elements fuel' rest' with
              | Some (items, after) => Some (item :: items, after)
              | None => None
              end
          | String "]" after => Some ([item], after)
          | _ => None
          end
      | None => None
      end
  end
with members (fuel : nat) (s : string) {struct fuel}
    : option (list (string * json) * string) :=
  match fuel with
  | O => None
  | S fuel' =>
      match skip s with
      | String c rest =>
          if Ascii.eqb c quote_char then
            match characters rest with
            | Some (key, rest1) =>
                match skip rest1 with
                | String ":" rest2 =>
                    match value fuel' rest2 with
                    | Some (item, rest3) =>
                        match skip rest3 with
                        | String "," rest4 =>
                            match members fuel' rest4 with
                            | Some (fields, after) =>
                                Some ((key, item) :: fields, after)
                            | None => None
                            end
                        | String "}" after => Some ([(key, item)], after)
                        | _ => None
                        end
                    | None => None
                    end
                | _ => None
                end
            | None => None
            end
          else None
      | EmptyString => None
      end
  end.

Definition document (s : string) : option json :=
  match value (S (String.length s)) s with
  | Some (v, rest) =>
      match skip rest with
      | EmptyString => Some v
      | _ => None
      end
  | None => None
  end.


(** [JSON.stringify(cookies, null, indent)] on an array of documents. *)
Definition stringify (cookies : list json) (indent : Z) : string :=
  print (Z.to_nat indent) 0 (JArray cookies).

(** [JSON.parse], on the texts that hold an array (the declared type of
    the cookie file); any other text is refused. *)
Definition parse (text : string) : Error + list json :=
  match document text with
  | Some (JArray cookies) => inr cookies
  | _ => inl (mkError "SyntaxError: Unexpected token in JSON")
  end.

(** A scripted environment: the calls at the positions [failing] of the
    trace are rejected, the n-th observation reports the n-th of [pages],
    the n-th clipboard read returns the n-th of [clips]. *)
Record Scenario := mkScenario {
  failing : list nat;
  pages : list (list ObserveResult);
  clips : list string;
  jar : list json;
  lag : N
}.

Definition is_clipboard_read (ev : Event json) : bool :=
  match ev with
  | Ev clipboard_readText _ => true
  | _ => false
  end.

Definition play (s : Scenario) : Environment json :=
  {| rejects h _ :=
       if existsb (Nat.eqb (length h)) (failing s)
       then Some (mkError "net::ERR_FAILED")
       else None;
     latency _ _ := lag s;
     observed h := nth (length (observations h)) (pages s) [];
     clipboard h :=
       nth (length (List.filter is_clipboard_read h)) (clips s) EmptyString;
     browser_cookies _ := jar s |}.

(** An [Error] as the console shows it, here with no frames on its stack. *)
Definition stack (e : Error) : string := "Error: " +:+ message e.

Definition host (s : Scenario) (variables : gmap string string)
    (flower : string) : Host json :=
  {| JSON_parse := parse;
     JSON_stringify := stringify;
     inspect := stack;
     env := play s;
     process_env := variables;
     argv := mkArgv flower |}.

(** A fresh machine: no files, nothing called or printed yet. *)
Definition start : World json :=
  {| files := ∅; clock := 0; trace := []; console := [] |}.

Definition session_cookie : json :=
  JObject [("name", JString "session"); ("value", JString "4f2a");
           ("domain", JString ".v0.dev"); ("path", JString "/");
           ("expires", JNumber 1767225600); ("httpOnly", JBool true);
           ("secure", JBool true); ("sameSite", JString "Lax")].

Definition login_page : list ObserveResult :=
  [mkObserveResult "button.login" "Sign In button in the header"].

Definition home_page : list ObserveResult :=
  [mkObserveResult "textarea#prompt" "Prompt textarea"].

Definition card : string := "export default function Card() { return null }".

(** Nothing fails, the user is not logged in, the marker shows at the
    first poll and the clipboard holds the card. *)
Definition smooth : Scenario :=
  {| failing := []; pages := [login_page; home_page]; clips := [card];
     jar := [session_cookie]; lag := 40 |}.

Definition credentials : gmap string string :=
  {[ "GITHUB_EMAIL" := "ada@example.org"; "GITHUB_PASSWORD" := "hunter2" ]}.

(** The smooth scenario, with and without the GitHub credentials in the
    process's environment. *)
Definition rose : Host json := host smooth credentials "rose".
Definition anonymous : Host json := host smooth ∅ "rose".

(** The login does not take: the page still shows the sign-in button after
    the credentials were submitted. *)
Definition stuck : Host json :=
  host {| failing := []; pages := [login_page; login_page]; clips := [card];
          jar := [session_cookie]; lag := 40 |} credentials "rose".

(** No call ever goes through. *)
Definition never : Host json :=
  host {| failing := seq 0 200; pages := []; clips := []; jar := [];
          lag := 0 |} ∅ "rose".

(** The first observation of the smooth scenario. *)
Definition seen_login : Event json :=
  Ev (page_observe LOGIN_INSTRUCTION) (ResolvedActions login_page).

(** The world after the cookie jar of the smooth scenario was saved. *)
Definition saved : World json :=
  snd (saveCookies (host := rose) (jar smooth) start).

(** The user is logged in already: the page shows no sign-in element. *)
Definition returning : Host json :=
  host {| failing := []; pages := [home_page]; clips := [card];
          jar := [session_cookie]; lag := 40 |} credentials "rose".

(** A machine whose cookie file was cut short. *)
Definition corrupted : World json :=
  {| files := {[ COOKIES_PATH := "[{" ]}; clock := 0; trace := [];
     console := [] |}.

(** The marker shows up late.  Every call takes 4999 ms to answer; twelve
    polls miss the marker, and the thirteenth, which starts 179976 ms
    after the start, finds it. *)
Definition late : Host json :=
  host {| failing := seq 0 24; pages := []; clips := []; jar := [];
          lag := 4999 |} ∅ "rose".

(** The wait for the generation on that host, from a fresh machine. *)
Definition late_wait : Outcome bool * World json :=
  waitForGeneration (host := late) 37 start.

(** Its twelve polls that miss the marker. *)
Definition late_misses : list (Event json) :=
  flat_map missed (repeat (mkError "net::ERR_FAILED") 12).

End Sample.

(** * Properties *)

Section Properties.

Context {Cookie : Type} {host : Host Cookie}.

Implicit Types w : World Cookie.

(** Unfolds the monad's combinators and the primitives. *)
Ltac run :=
  unfold bind, try_catch, ret, throw, out_of_fuel, act, observe,
    cookies_of_context, readText, invoke, ask, sleep, readFile, writeFile,
    console_log, Date_now, parse; simpl.

(** ** Cookie persistence *)

(** What a load returns and leaves behind. *)
Lemma loadCookies_run w :
  exists (r : Reply Cookie) (w' : World Cookie),
    loadCookies w = (Return (cookies_on_disk (trace w) (files w)), w')
    /\ trace w' = trace w ++ [Ev cookie_read r]
    /\ files w' = files w.
Proof.
  unfold loadCookies, cookies_on_disk, cookie_read. run.
  destruct (rejects env (trace w) _) as [e|]; simpl; [ eauto | ].
  destruct (files w !! COOKIES_PATH) as [data|]; simpl; [ | eauto ].
  destruct (JSON_parse data); simpl; eauto.
Qed.

(** C1. [loadCookies] never throws: it returns the parsed array when the
    cookie file can be read and its contents parse, and the empty array
    when the read is rejected, the file is missing, or the parse fails.
    It leaves the files as they are. *)
Theorem loadCookies_best_effort w :
  fst (loadCookies w) =
    Return
      match rejects env (trace w) (fs_readFile COOKIES_PATH "utf-8"),
            files w !! COOKIES_PATH with
      | None, Some cookiesData =>
          match JSON_parse cookiesData with
          | inr cookies => cookies
          | inl _ => []
          end
      | _, _ => []
      end
  /\ files (snd (loadCookies w)) = files w.
Proof.
  destruct (loadCookies_run w) as (r & w' & Hload & _ & Hfiles).
  rewrite Hload. split; [ reflexivity | exact Hfiles ].
Qed.

(** C2. Saving a JSON-serializable array and then loading, with the cookie
    file untouched in between, returns the array saved, provided the file
    system carries out the write and the read.  After the save the cookie
    file holds exactly the text of the array saved, whatever it held
    before, and no other file has changed. *)
Theorem saveCookies_loadCookies_roundtrip
    (cookies : list Cookie) w w' :
  JSON_serializable cookies ->
  rejects env (trace w)
    (fs_writeFile COOKIES_PATH (JSON_stringify cookies 2)) = None ->
  files w' !! COOKIES_PATH = files (snd (saveCookies cookies w)) !! COOKIES_PATH ->
  rejects env (trace w') (fs_readFile COOKIES_PATH "utf-8") = None ->
  fst (saveCookies cookies w) = Return tt
  /\ files (snd (saveCookies cookies w)) =
       <[COOKIES_PATH := JSON_stringify cookies 2]> (files w)
  /\ fst (loadCookies w') = Return cookies.
Proof.
  intros Hjson Hwrite Hsame Hread.
  destruct (loadCookies_run w') as (r & w2 & Hload & _).
  rewrite Hload. unfold cookies_on_disk, cookie_read.
  rewrite Hread, Hsame. clear Hload.
  unfold saveCookies. run. rewrite Hwrite. simpl.
  rewrite lookup_insert_eq, Hjson. easy.
Qed.

(** ** waitForGeneration *)

Lemma poll_spec w :
  poll w =
    match rejects env (trace w) marker_poll with
    | None => (Return (Some true), record marker_poll Resolved 0 (files w) w)
    | Some e =>
        (Return None,
         record (setTimeout 5000) Resolved 5000 (files w)
           (record marker_poll (Rejected e) 0 (files w) w))
    end.
Proof.
  unfold poll, marker_poll. run.
  destruct (rejects env (trace w) _); reflexivity.
Qed.

(** One turn of the loop. *)
Lemma waitForGeneration_loop_step (fuel : nat) (startTime : Z) w :
  waitForGeneration_loop (S fuel) startTime w =
    if clock w - startTime <? MAX_GENERATION_TIME then
      let w0 := print "🔍 Waiting for generation to complete..." w in
      match rejects env (trace w) marker_poll with
      | None => (Return true, record marker_poll Resolved 0 (files w) w0)
      | Some e =>
          waitForGeneration_loop fuel startTime
            (record (setTimeout 5000) Resolved 5000 (files w)
               (record marker_poll (Rejected e) 0 (files w) w0))
      end
    else (Throw GENERATION_TIMED_OUT, w).
Proof.
  cbn [waitForGeneration_loop]. unfold bind at 1, Date_now at 1.
  destruct (clock w - startTime <? MAX_GENERATION_TIME); [ | reflexivity ].
  unfold bind at 1, console_log at 1, bind at 1.
  rewrite poll_spec. cbn [print trace files].
  destruct (rejects env (trace w) marker_poll); reflexivity.
Qed.

Lemma waitForGeneration_loop_spec (fuel : nat) (startTime : Z) :
  forall w,
    Z.max 1 (MAX_GENERATION_TIME - (clock w - startTime) + 5000)
      <= 5000 * Z.of_nat fuel ->
    exists errors : list Error,
      let h := trace w ++ flat_map missed errors in
      let w' := snd (waitForGeneration_loop fuel startTime w) in
      5000 * Z.of_nat (length errors)
        <= Z.max 0 (MAX_GENERATION_TIME - (clock w - startTime) + 4999)
      /\ files w' = files w
      /\ ((fst (waitForGeneration_loop fuel startTime w) = Return true
           /\ trace w' = h ++ [Ev marker_poll Resolved]
           /\ clock w' - Z.of_N (latency env h marker_poll) - startTime
                < MAX_GENERATION_TIME)
          \/ (fst (waitForGeneration_loop fuel startTime w)
                = Throw GENERATION_TIMED_OUT
              /\ trace w' = h
              /\ MAX_GENERATION_TIME <= clock w' - startTime)).
Proof.
  induction fuel as [|fuel IH]; intros w Hfuel.
  - unfold MAX_GENERATION_TIME in *. lia.
  - rewrite waitForGeneration_loop_step.
    destruct (clock w - startTime <? MAX_GENERATION_TIME) eqn:Hnow.
    + apply Z.ltb_lt in Hnow. cbn zeta.
      set (w0 := print _ w).
      destruct (rejects env (trace w) marker_poll) as [e|] eqn:Hrej.
      * set (w2 := record (setTimeout 5000) _ _ _ _).
        assert (Htrace : trace w2 = trace w ++ missed e)
          by (unfold w2, missed; cbn; now rewrite <- app_assoc).
        assert (Hclock : clock w + 5000 <= clock w2)
          by (unfold w2; cbn; lia).
        destruct (IH w2) as (errors & Hlen & Hfiles & Hcases);
          [ unfold MAX_GENERATION_TIME in *; lia | ].
        exists (e :: errors). cbn zeta in *.
        rewrite Htrace in Hcases. rewrite <- ?app_assoc in Hcases.
        cbn [flat_map length]. rewrite <- ?app_assoc.
        split; [ unfold MAX_GENERATION_TIME in *; lia | ].
        split; [ exact Hfiles | exact Hcases ].
      * exists []. cbn [flat_map length fst snd]. rewrite app_nil_r.
        split; [ unfold MAX_GENERATION_TIME in *; lia | ].
        split; [ reflexivity | ]. left.
        split; [ reflexivity | ]. split; [ reflexivity | ].
        cbn. lia.
    + apply Z.ltb_ge in Hnow.
      exists []. cbn [flat_map length throw fst snd]. rewrite app_nil_r.
      split; [ unfold MAX_GENERATION_TIME in *; lia | ].
      split; [ reflexivity | ]. right. easy.
Qed.

(** C3. With 37 units of fuel or more [waitForGeneration] ends, in one
    of two ways.  It makes at most 36 polls that miss the marker, each
    followed by a sleep of 5000 ms, and then either a poll finds the
    marker, and it returns [true] at once (that poll having started less
    than [MAX_GENERATION_TIME] after the start), or the loop's clock
    check finds [MAX_GENERATION_TIME] or more elapsed, and it throws
    'Generation timed out'. *)
Theorem waitForGeneration_two_outcomes (extra : nat) w :
  exists errors : list Error,
    let h := trace w ++ flat_map missed errors in
    let w' := snd (waitForGeneration (37 + extra) w) in
    (length errors <= 36)%nat
    /\ ((fst (waitForGeneration (37 + extra) w) = Return true
         /\ trace w' = h ++ [Ev marker_poll Resolved]
         /\ clock w' - Z.of_N (latency env h marker_poll) - clock w
              < MAX_GENERATION_TIME)
        \/ (fst (waitForGeneration (37 + extra) w)
              = Throw GENERATION_TIMED_OUT
            /\ trace w' = h
            /\ MAX_GENERATION_TIME <= clock w' - clock w)).
Proof.
  unfold waitForGeneration, bind at 1, Date_now at 1.
  destruct (waitForGeneration_loop_spec (37 + extra) (clock w) w)
    as (errors & Hlen & _ & Hcases).
  - unfold MAX_GENERATION_TIME. lia.
  - exists errors. cbn zeta in *. split; [ | exact Hcases ].
    unfold MAX_GENERATION_TIME in Hlen. lia.
Qed.

(** ** extractCode *)

(** Finds the call whose fate the environment decides next. *)
Ltac next_call :=
  match goal with
  | |- context [rejects env ?h ?c] =>
      let e := fresh "e" in
      let H := fresh "Hrej" in
      destruct (rejects env h c) as [e|] eqn:H; simpl
  end.

Lemma click_code_tab_spec w :
  exists clicks : list (Event Cookie),
    trace (snd (click_code_tab w)) = trace w ++ clicks
    /\ files (snd (click_code_tab w)) = files w
    /\ console (snd (click_code_tab w)) = console w
    /\ fallback_order clicks
    /\ fst (click_code_tab w) =
         match last clicks with
         | Some (Ev _ (Rejected e)) => Throw e
         | _ => Return tt
         end.
Proof.
  unfold click_code_tab. run. fold (@text_click Cookie).
  fold (@role_click Cookie). fold (@act_click Cookie).
  repeat next_call; eexists;
    (split; [ rewrite <- ?app_assoc; reflexivity | ]);
    cbn; intuition eauto.
Qed.

Ltac run_in H :=
  unfold bind, try_catch, ret, throw, out_of_fuel, act, observe,
    cookies_of_context, readText, invoke, ask, sleep, readFile, writeFile,
    console_log, Date_now, parse in H; simpl in H.

Ltac next_call_in H :=
  match type of H with
  | context [rejects env ?h ?c] =>
      let e := fresh "e" in
      let Hrej := fresh "Hrej" in
      destruct (rejects env h c) as [e|] eqn:Hrej; simpl in H
  end.

Lemma attempt_spec (attempts : Z) w :
  exists clicks rest : list (Event Cookie),
    trace (snd (attempt attempts w)) = trace w ++ clicks ++ rest
    /\ files (snd (attempt attempts w)) = files w
    /\ fallback_order clicks
    /\ forallb (fun ev => negb (is_tab_click ev) && negb (is_pause ev)) rest
         = true
    /\ match fst (attempt attempts w) with
       | Return (Some files) =>
           exists codeContent : string,
             files = {[ "code.tsx" := codeContent ]}
             /\ accepted codeContent = true
             /\ last (clicks ++ rest)
                  = Some (Ev clipboard_readText (ResolvedText codeContent))
       | Return None =>
           forall codeContent : string,
             last (clicks ++ rest)
               = Some (Ev clipboard_readText (ResolvedText codeContent)) ->
             accepted codeContent = false
       | _ => False
       end.
Proof.
  destruct (attempt attempts w) as [o w'] eqn:Hrun. cbn [fst snd].
  unfold attempt in Hrun.
  unfold try_catch at 1, bind at 1, console_log at 1, bind at 1,
    console_log at 1, bind at 1 in Hrun.
  set (w0 := print _ (print _ w)) in Hrun.
  destruct (click_code_tab_spec w0)
    as (clicks & Htr & Hfi & _ & Hord & Hout).
  destruct (click_code_tab w0) as [o1 w1]. cbn [fst snd] in *.
  change (trace w0) with (trace w) in Htr.
  change (files w0) with (files w) in Hfi.
  exists clicks. unfold accepted.
  destruct (last clicks) as [[c [e| | | |]]|] eqn:Hlast; subst o1;
    run_in Hrun.
  1: { injection Hrun as <- <-. exists []. rewrite !app_nil_r.
       cbn [trace files print]. repeat split; auto.
       intros codeContent Hread. rewrite Hread in Hlast. discriminate. }
  all: repeat next_call_in Hrun;
    try match type of Hrun with
        | context [clipboard env ?h] =>
            generalize dependent (clipboard env h); intros codeContent Hrun
        end;
    try (destruct (non_blank _) eqn:Hblank;
         [ destruct (has_code_keyword _) eqn:Hkey | ]);
    simpl in Hrun; injection Hrun as <- <-;
    eexists; cbn [trace files record print]; rewrite ?Htr, <- ?app_assoc;
    (split; [ reflexivity | ]);
    (split; [ exact Hfi | ]);
    (split; [ exact Hord | ]);
    (split; [ reflexivity | ]);
    rewrite last_app; cbn;
    try (eexists; repeat split; eauto; rewrite ?Hblank, ?Hkey; easy);
    try (intros ? [= <-]; rewrite ?Hblank, ?Hkey;
         auto using andb_false_r);
    try discriminate.
Qed.

(** One turn of the loop of [extractCode]. *)
Lemma extractCode_loop_step (fuel : nat) (attempts : Z) w :
  extractCode_loop (S fuel) attempts w =
    if attempts <? maxAttempts then
      match attempt attempts w with
      | (Return (Some files), w1) => (Return files, w1)
      | (Return None, w1) =>
          extractCode_loop fuel (attempts + 1)
            (record (setTimeout 2000) Resolved 2000 (files w1) w1)
      | (Throw e, w1) => (Throw e, w1)
      | (OutOfFuel, w1) => (OutOfFuel, w1)
      end
    else (Throw EXTRACT_FAILED, w).
Proof.
  cbn [extractCode_loop].
  destruct (attempts <? maxAttempts); [ | reflexivity ].
  unfold bind at 1.
  destruct (attempt attempts w) as [[[files|]|e|] w1]; reflexivity.
Qed.

Lemma extractCode_loop_spec (fuel : nat) :
  forall (attempts : Z) w,
    0 <= attempts <= maxAttempts ->
    maxAttempts - attempts + 1 <= Z.of_nat fuel ->
    exists (failed : list (list (Event Cookie))) (final : list (Event Cookie)),
      let r := extractCode_loop fuel attempts w in
      trace (snd r)
        = trace w ++ flat_map (fun a => a ++ [pause]) failed ++ final
      /\ files (snd r) = files w
      /\ Forall
           (fun a =>
              one_attempt a
              /\ forall codeContent : string,
                   last a = Some (Ev clipboard_readText
                                     (ResolvedText codeContent)) ->
                   accepted codeContent = false)
           failed
      /\ ((exists codeContent : string,
             fst r = Return {[ "code.tsx" := codeContent ]}
             /\ accepted codeContent = true
             /\ last final
                  = Some (Ev clipboard_readText (ResolvedText codeContent))
             /\ one_attempt final
             /\ Z.of_nat (length failed) < maxAttempts - attempts)
          \/ (fst r = Throw EXTRACT_FAILED
              /\ final = []
              /\ Z.of_nat (length failed) = maxAttempts - attempts)).
Proof.
  induction fuel as [|fuel IH]; intros attempts w Hrange Hfuel.
  - unfold maxAttempts in *. lia.
  - cbn zeta. rewrite extractCode_loop_step.
    destruct (attempts <? maxAttempts) eqn:Hlt.
    + apply Z.ltb_lt in Hlt.
      destruct (attempt_spec attempts w)
        as (clicks & rest & Htr & Hfi & Hord & Hrest & Hres).
      destruct (attempt attempts w) as [[[files|]|e|] w1];
        cbn [fst snd] in *; try contradiction.
      * destruct Hres as (codeContent & -> & Hacc & Hlast).
        exists [], (clicks ++ rest). cbn [flat_map app length].
        repeat split; auto.
        left. exists codeContent. repeat split; auto.
        -- now exists clicks, rest.
        -- lia.
      * set (w2 := record (setTimeout 2000) Resolved 2000 (files w1) w1).
        destruct (IH (attempts + 1) w2)
          as (failed & final & Htr2 & Hfi2 & Hall & Hcases);
          [ lia | lia | ].
        cbn zeta in *.
        exists ((clicks ++ rest) :: failed), final.
        split.
        { rewrite Htr2. unfold w2. cbn [trace record flat_map].
          rewrite Htr. fold (@pause Cookie).
          now rewrite <- !app_assoc. }
        split; [ now rewrite Hfi2 | ].
        split.
        { constructor; [ | exact Hall ]. split; [ | exact Hres ].
          now exists clicks, rest. }
        cbn [length]. rewrite Nat2Z.inj_succ.
        destruct Hcases as [(codeContent & ? & ? & ? & ? & ?)|(? & ? & ?)].
        -- left. exists codeContent. repeat split; auto. lia.
        -- right. repeat split; auto. lia.
    + apply Z.ltb_ge in Hlt.
      exists [], []. cbn [flat_map app length fst snd]. rewrite app_nil_r.
      repeat split; auto. right. repeat split; auto. lia.
Qed.

Lemma accepted_spec (codeContent : string) :
  accepted codeContent = true <->
  JS.trim codeContent <> EmptyString
  /\ exists keyword : string,
       In keyword code_keywords
       /\ JS.includes codeContent keyword = true.
Proof.
  unfold accepted, non_blank, has_code_keyword, code_keywords, JS.length.
  rewrite andb_true_iff, andb_true_iff, Z.ltb_lt, !orb_true_iff.
  split.
  - intros [[_ Hlen] Hkey]. split.
    + intros Hnil. rewrite Hnil in Hlen. cbn in Hlen. lia.
    + cbn [In]. intuition eauto 10.
  - intros [Hne (keyword & Hin & Hkey)]. split.
    + split.
      * destruct codeContent; [ now elim Hne | reflexivity ].
      * destruct (JS.trim codeContent); [ now elim Hne | cbn; lia ].
    + cbn [In] in Hin. intuition (subst; auto).
Qed.

(** C4. With 6 units of fuel or more [extractCode] ends.  Its calls are
    those of at most 5 attempts, each failed attempt followed by a sleep
    of 2000 ms: either an attempt succeeds, after at most 4 failed ones,
    and [extractCode] returns; or 5 attempts fail and it throws 'Failed
    to extract code after multiple attempts'. *)
Theorem extractCode_bounded_retries (extra : nat) w :
  exists (failed : list (list (Event Cookie))) (final : list (Event Cookie)),
    let r := extractCode (6 + extra) w in
    trace (snd r)
      = trace w ++ flat_map (fun a => a ++ [pause]) failed ++ final
    /\ Forall one_attempt failed
    /\ ((exists files : gmap string string,
           fst r = Return files
           /\ one_attempt final
           /\ (length failed <= 4)%nat)
        \/ (fst r = Throw EXTRACT_FAILED
            /\ final = []
            /\ length failed = 5%nat)).
Proof.
  set (w0 := print "🔍 Extracting code..." w).
  change (extractCode (6 + extra) w)
    with (extractCode_loop (6 + extra) 0 w0).
  destruct (extractCode_loop_spec (6 + extra) 0 w0)
    as (failed & final & Htr & _ & Hall & Hcases);
    [ unfold maxAttempts; lia | unfold maxAttempts; lia | ].
  exists failed, final. cbn zeta in *.
  split; [ exact Htr | ].
  split; [ eapply Forall_impl; [ exact Hall | now intros a [Ha _] ] | ].
  unfold maxAttempts in Hcases.
  destruct Hcases as [(codeContent & ? & ? & ? & ? & ?)|(? & ? & ?)].
  - left. eexists. repeat split; eauto. lia.
  - right. repeat split; auto. lia.
Qed.

(** C5. In every attempt of [extractCode] the clicks on the Code tab
    come first and in the order of the fallback: the text locator; the
    role locator only after the text locator was rejected; the [act]
    instruction only after both were rejected.  No other call of the
    attempt is a click on the tab. *)
Theorem attempt_fallback_order (attempts : Z) w :
  exists clicks rest : list (Event Cookie),
    trace (snd (attempt attempts w)) = trace w ++ clicks ++ rest
    /\ fallback_order clicks
    /\ forallb (fun ev => negb (is_tab_click ev)) rest = true.
Proof.
  destruct (attempt_spec attempts w)
    as (clicks & rest & Htr & _ & Hord & Hrest & _).
  exists clicks, rest. repeat split; auto.
  rewrite forallb_forall in *. intros ev Hin.
  apply Hrest in Hin. now apply andb_true_iff in Hin.
Qed.

(** C9. [extractCode] returns only a clipboard text that passes the
    filter: with 6 units of fuel or more, what it returns is the text of
    its last clipboard read under the key 'code.tsx', and that text is
    not blank and contains one of the keywords.  A clipboard text that
    fails the filter ends a failed attempt, and when no attempt succeeds
    the only error is 'Failed to extract code after multiple attempts'. *)
Theorem extractCode_content_filter (extra : nat) w :
  exists (failed : list (list (Event Cookie))) (final : list (Event Cookie)),
    let r := extractCode (6 + extra) w in
    trace (snd r)
      = trace w ++ flat_map (fun a => a ++ [pause]) failed ++ final
    /\ Forall
         (fun a =>
            forall codeContent : string,
              last a = Some (Ev clipboard_readText (ResolvedText codeContent)) ->
              accepted codeContent = false)
         failed
    /\ match fst r with
       | Return files =>
           exists codeContent : string,
             files = {[ "code.tsx" := codeContent ]}
             /\ last (trace (snd r))
                  = Some (Ev clipboard_readText (ResolvedText codeContent))
             /\ accepted codeContent = true
             /\ JS.trim codeContent <> EmptyString
             /\ exists keyword : string,
                  In keyword code_keywords
                  /\ JS.includes codeContent keyword = true
       | Throw e => e = EXTRACT_FAILED
       | OutOfFuel => False
       end.
Proof.
  set (w0 := print "🔍 Extracting code..." w).
  change (extractCode (6 + extra) w)
    with (extractCode_loop (6 + extra) 0 w0).
  destruct (extractCode_loop_spec (6 + extra) 0 w0)
    as (failed & final & Htr & _ & Hall & Hcases);
    [ unfold maxAttempts; lia | unfold maxAttempts; lia | ].
  exists failed, final. cbn zeta in *.
  split; [ exact Htr | ].
  split; [ eapply Forall_impl; [ exact Hall | now intros a [_ Ha] ] | ].
  destruct Hcases as [(codeContent & Hret & Hacc & Hlast & _)|(Hthrow & _)].
  - rewrite Hret. exists codeContent.
    split; [ reflexivity | ].
    split.
    { rewrite Htr, !last_app, Hlast. reflexivity. }
    split; [ exact Hacc | ]. now apply accepted_spec.
  - now rewrite Hthrow.
Qed.

(** ** checkAndLogin *)

Ltac innermost x k :=
  lazymatch x with
  | match ?y with _ => _ end => innermost y k
  | _ => k x
  end.

(** Decides the test at the head of the computation in [H]. *)
Ltac head_case H :=
  let decide_on x :=
    innermost x ltac:(fun y =>
      let E := fresh "Hcase" in
      destruct y eqn:E; simpl in H) in
  lazymatch type of H with
  | (match ?x with _ => _ end) = _ => decide_on x
  | (match ?x with _ => _ end) _ = _ => decide_on x
  end.

Ltac trace_of_run :=
  eexists; split;
  [ cbn [trace files record print fst snd]; rewrite <- ?app_assoc;
    reflexivity
  | ].

(** Closes the cases of a run whose trace is known. *)
Ltac settle :=
  rewrite <- ?app_assoc in *; cbn [app] in *;
  repeat match goal with
         | |- _ /\ _ => split
         | |- _ -> _ => intro
         | |- forall _, _ => intro
         | H : negb _ = true |- _ => apply negb_true_iff in H
         | H : negb _ = false |- _ => apply negb_false_iff in H
         | H : _ :: _ = _ :: _ |- _ => injection H as ? ?; subst
         | H : Some _ = Some _ |- _ => injection H as ?; subst
         end;
  try discriminate; try congruence;
  try (repeat eexists; first [ reflexivity | eassumption | congruence ]).

(** The runs of [checkAndLogin] in which no call is rejected. *)
Ltac unrejected :=
  let Hnone := fresh "Hnone" in
  intros Hnone;
  first
    [ discriminate Hnone
    | eexists _, _; split; [ reflexivity | ];
      rewrite <- ?app_assoc in *; cbn [app] in *;
      repeat match goal with
             | H : negb _ = true |- _ => apply negb_true_iff in H
             | H : negb _ = false |- _ => apply negb_false_iff in H
             end;
      split;
      [ intros Hlogin Hcreds;
        first
          [ congruence
          | eexists _, _; split; [ reflexivity | ];
            match goal with
            | H : some_login ?x = _
              |- context [if some_login ?x then _ else _] => rewrite H
            end;
            lazymatch goal with
            | |- exists _, _ => eexists
            | |- _ => idtac
            end;
            repeat split ]
      | intros Hno;
        first
          [ repeat match goal with
                   | H : _ = true |- _ => rewrite H in Hno
                   end;
            discriminate Hno
          | repeat split; reflexivity ] ] ].

(** C7. [checkAndLogin] types the credentials only after an observation
    that reported login elements.  When the observation after the
    submission still reports login elements it throws 'Login failed -
    still seeing login elements after attempt' and writes nothing.  It
    returns [true] only after two observations, the first with and the
    second without login elements, its last two calls being the read of
    the browser's cookies and the write of those cookies to the cookie
    file; it writes a file in no other case.  And it does verify: in a
    run in which no call is rejected, the first call is an observation;
    when that reports login elements and both credentials are set, it
    clicks through, types them, submits, waits 2000 ms and observes
    again, and then either throws 'Login failed ...' with no file
    changed (login elements still there) or reads the browser's cookies,
    saves them and returns [true] (none left); otherwise it returns
    [false], having typed no credentials and changed no file. *)
Theorem checkAndLogin_verifies w :
  exists d : list (Event Cookie),
    let r := checkAndLogin w in
    trace (snd r) = trace w ++ d
    /\ (existsb is_credentials d = true ->
        exists first : list ObserveResult,
          head (observations d) = Some first /\ some_login first = true)
    /\ (forall first post : list ObserveResult,
          observations d = [first; post] ->
          some_login post = true ->
          fst r = Throw LOGIN_FAILED /\ existsb is_write d = false)
    /\ (fst r = Return true ->
        exists (before : list (Event Cookie)) (cookies : list Cookie)
               (first post : list ObserveResult),
          d = before ++ saved_jar cookies
          /\ observations d = [first; post]
          /\ some_login first = true
          /\ some_login post = false
          /\ files (snd r)
               = <[COOKIES_PATH := JSON_stringify cookies 2]> (files w))
    /\ (existsb is_write d = true ->
        exists first post : list ObserveResult,
          observations d = [first; post] /\ some_login post = false)
    /\ (rejections d = [] ->
        exists (first : list ObserveResult) (rest : list (Event Cookie)),
          d = seen first :: rest
          /\ (some_login first = true ->
              env_truthy "GITHUB_EMAIL" && env_truthy "GITHUB_PASSWORD"
                = true ->
              exists (post : list ObserveResult) (ending : list (Event Cookie)),
                rest = login_steps ++ seen post :: ending
                /\ if some_login post
                   then ending = []
                        /\ fst r = Throw LOGIN_FAILED
                        /\ files (snd r) = files w
                   else exists cookies : list Cookie,
                          ending = saved_jar cookies
                          /\ fst r = Return true
                          /\ files (snd r)
                               = <[COOKIES_PATH := JSON_stringify cookies 2]>
                                   (files w))
          /\ (some_login first
                && (env_truthy "GITHUB_EMAIL" && env_truthy "GITHUB_PASSWORD")
                = false ->
              fst r = Return false
              /\ existsb is_credentials d = false
              /\ files (snd r) = files w)).
Proof.
  destruct (checkAndLogin w) as [o w'] eqn:Hrun. cbn zeta. cbn [fst snd].
  unfold checkAndLogin, saveCookies in Hrun. run_in Hrun.
  repeat head_case Hrun; injection Hrun as <- <-; trace_of_run;
    (split; [ | split; [ | split; [ | split ] ] ];
     [ cbn; settle
     | cbn; settle
     | intros Hret; first
         [ discriminate Hret
         | eexists [_; _; _; _; _; _; _; _]; cbn; settle ]
     | cbn; settle
     | unrejected ]).
Qed.

(** C10. When the first observation reports login elements, one of
    GITHUB_EMAIL and GITHUB_PASSWORD is unset, and the two sign-in clicks
    go through, [checkAndLogin] returns [false]: it does not throw, its
    calls are the observation and the two clicks and nothing else (no
    credentials typed, no cookies read or saved), and no file changes. *)
Theorem checkAndLogin_missing_credentials w :
  let seen :=
    Ev (page_observe LOGIN_INSTRUCTION)
       (ResolvedActions (observed env (trace w))) in
  rejects env (trace w) (page_observe LOGIN_INSTRUCTION) = None ->
  some_login (observed env (trace w)) = true ->
  process_env !! "GITHUB_EMAIL" = None
    \/ process_env !! "GITHUB_PASSWORD" = None ->
  rejects env (trace w ++ [seen]) sign_in_click = None ->
  rejects env (trace w ++ [seen; Ev sign_in_click Resolved]) github_click
    = None ->
  fst (checkAndLogin w) = Return false
  /\ trace (snd (checkAndLogin w))
       = trace w ++ [seen; Ev sign_in_click Resolved;
                     Ev github_click Resolved]
  /\ files (snd (checkAndLogin w)) = files w.
Proof.
  intros seen Hobserve Hlogin Hunset Hclick Hgithub.
  assert (Hcreds :
    env_truthy "GITHUB_EMAIL" && env_truthy "GITHUB_PASSWORD" = false).
  { unfold env_truthy.
    destruct Hunset as [-> | ->]; [ reflexivity | apply andb_false_r ]. }
  unfold seen, sign_in_click, github_click in *.
  destruct (checkAndLogin w) as [o w'] eqn:Hrun. cbn [fst snd].
  unfold checkAndLogin, saveCookies in Hrun. run_in Hrun.
  rewrite Hobserve in Hrun. simpl in Hrun.
  rewrite Hlogin in Hrun. simpl in Hrun.
  rewrite Hclick in Hrun. simpl in Hrun.
  rewrite <- app_assoc in Hrun. cbn [app] in Hrun.
  rewrite Hgithub in Hrun. simpl in Hrun.
  rewrite Hcreds in Hrun. simpl in Hrun.
  injection Hrun as <- <-. cbn [trace files record].
  rewrite <- !app_assoc. easy.
Qed.

(** ** The calls of a computation *)

Section Confined.

Context {A : Type} (allowed : Event Cookie -> bool).

Lemma confined_ret (a : A) : confined allowed (ret a).
Proof. intros w. exists []. now rewrite app_nil_r. Qed.

Lemma confined_throw (e : Error) : confined allowed (throw (A := A) e).
Proof. intros w. exists []. now rewrite app_nil_r. Qed.

Lemma confined_out_of_fuel : confined allowed (out_of_fuel (A := A)).
Proof. intros w. exists []. now rewrite app_nil_r. Qed.

Lemma confined_console_log (line : string) :
  confined allowed (console_log line).
Proof. intros w. exists []. now rewrite app_nil_r. Qed.

Lemma confined_Date_now : confined allowed Date_now.
Proof. intros w. exists []. now rewrite app_nil_r. Qed.

Lemma confined_sleep (ms : Z) :
  allowed (Ev (setTimeout ms) Resolved) = true ->
  confined allowed (sleep ms).
Proof. intros Hev w. eexists. split; [ reflexivity | ]. cbn. now rewrite Hev. Qed.

Lemma confined_ask (c : Call Cookie) (value : list (Event Cookie) -> A)
    (reply : A -> Reply Cookie) :
  (forall r, allowed (Ev c r) = true) ->
  confined allowed (ask c value reply).
Proof.
  intros Hev w. unfold ask.
  destruct (rejects env (trace w) c); eexists;
    (split; [ reflexivity | ]); cbn; now rewrite Hev.
Qed.

Lemma confined_readFile (path encoding : string) :
  (forall r, allowed (Ev (fs_readFile path encoding) r) = true) ->
  confined allowed (readFile path encoding).
Proof.
  intros Hev w. unfold readFile.
  destruct (rejects env (trace w) _); [ | destruct (files w !! path) ];
    eexists; (split; [ reflexivity | ]); cbn; now rewrite Hev.
Qed.

Lemma confined_writeFile (path data : string) :
  (forall r, allowed (Ev (fs_writeFile path data) r) = true) ->
  confined allowed (writeFile path data).
Proof.
  intros Hev w. unfold writeFile.
  destruct (rejects env (trace w) _); eexists;
    (split; [ reflexivity | ]); cbn; now rewrite Hev.
Qed.

Lemma confined_bind {B : Type} (m : M B) (k : B -> M A) :
  confined allowed m ->
  (forall b, confined allowed (k b)) ->
  confined allowed (bind m k).
Proof.
  intros Hm Hk w. unfold bind. destruct (Hm w) as (d1 & Htr1 & Hall1).
  destruct (m w) as [[b|e|] w1]; cbn [snd] in *.
  - destruct (Hk b w1) as (d2 & Htr2 & Hall2).
    exists (d1 ++ d2). rewrite Htr2, Htr1, app_assoc.
    split; [ reflexivity | ]. rewrite forallb_app. now rewrite Hall1, Hall2.
  - now exists d1.
  - now exists d1.
Qed.

Lemma confined_try_catch (m : M A) (handler : Error -> M A) :
  confined allowed m ->
  (forall e, confined allowed (handler e)) ->
  confined allowed (try_catch m handler).
Proof.
  intros Hm Hh w. unfold try_catch. destruct (Hm w) as (d1 & Htr1 & Hall1).
  destruct (m w) as [[a|e|] w1]; cbn [snd] in *.
  - now exists d1.
  - destruct (Hh e w1) as (d2 & Htr2 & Hall2).
    exists (d1 ++ d2). rewrite Htr2, Htr1, app_assoc.
    split; [ reflexivity | ]. rewrite forallb_app. now rewrite Hall1, Hall2.
  - now exists d1.
Qed.


End Confined.

(** Breaks a computation into its calls and checks each of them. *)
Ltac confine_step :=
  first
    [ apply confined_bind; [ | intro ]
    | apply confined_try_catch; [ | intro ]
    | apply confined_ret
    | apply confined_throw
    | apply confined_out_of_fuel
    | apply confined_console_log
    | apply confined_Date_now
    | apply confined_sleep; reflexivity
    | apply confined_ask; intro; reflexivity
    | apply confined_readFile; intro; reflexivity
    | apply confined_writeFile; intro; reflexivity
    | assumption
    | match goal with
      | |- confined _ (match ?x with _ => _ end) => destruct x
      end ].

Ltac confine := repeat confine_step.


Lemma saveCookies_quiet (cookies : list Cookie) :
  confined quiet (saveCookies cookies).
Proof. unfold saveCookies. confine. Qed.

Lemma waitForGeneration_quiet (fuel : nat) :
  confined quiet (waitForGeneration fuel).
Proof.
  unfold waitForGeneration. apply confined_bind; [ confine | intros startTime ].
  induction fuel as [|fuel IH]; cbn [waitForGeneration_loop];
    unfold poll, invoke; confine.
Qed.

Lemma extractCode_quiet (fuel : nat) : confined quiet (extractCode fuel).
Proof.
  unfold extractCode. apply confined_bind; [ confine | intros _ ].
  generalize 0. induction fuel as [|fuel IH]; intros attempts;
    cbn [extractCode_loop];
    unfold attempt, click_code_tab, readText, act, invoke; confine.
  apply IH.
Qed.

Lemma cookies_of_context_quiet : confined quiet cookies_of_context.
Proof. unfold cookies_of_context. confine. Qed.

Lemma quiet_no_login_step (d : list (Event Cookie)) :
  forallb quiet d = true -> existsb is_login_step d = false.
Proof.
  induction d as [|ev d IH]; [ reflexivity | ].
  cbn [forallb existsb]. unfold quiet at 1.
  rewrite !andb_true_iff, !negb_true_iff. intros [[-> _] Hd]. now apply IH.
Qed.


(** ** main *)

Lemma generate_spec (fuel : nat) w :
  exists (r : Reply Cookie) (d : list (Event Cookie)),
    trace (snd (generate fuel w)) = trace w ++ Ev submission r :: d
    /\ forallb quiet d = true
    /\ (forall files, fst (generate fuel w) = Return files -> r = Resolved).
Proof.
  destruct (generate fuel w) as [o w'] eqn:Hrun. cbn [fst snd].
  unfold generate, bind at 1, act at 1, invoke at 1, ask at 1 in Hrun.
  fold submission in Hrun.
  destruct (rejects env (trace w) submission) as [e|].
  - injection Hrun as <- <-.
    exists (Rejected e), []. cbn. repeat split. discriminate.
  - set (w1 := record submission Resolved 0 (files w) w) in Hrun.
    match type of Hrun with
    | ?rest w1 = _ => assert (Hrest : confined quiet rest)
    end.
    { unfold invoke.
      repeat first
        [ apply waitForGeneration_quiet | apply extractCode_quiet
        | apply saveCookies_quiet | apply cookies_of_context_quiet
        | confine_step ]. }
    destruct (Hrest w1) as (d & Htr & Hall).
    rewrite Hrun in Htr. cbn [snd] in Htr.
    exists Resolved, d. split; [ | split; [ exact Hall | now intros ] ].
    rewrite Htr. unfold w1. cbn [trace record].
    now rewrite <- app_assoc.
Qed.

Lemma checkAndLogin_starts w :
  exists (r : Reply Cookie) (d : list (Event Cookie)),
    trace (snd (checkAndLogin w))
      = trace w ++ Ev (page_observe LOGIN_INSTRUCTION) r :: d.
Proof.
  destruct (checkAndLogin w) as [o w'] eqn:Hrun. cbn [fst snd].
  unfold checkAndLogin, saveCookies in Hrun. run_in Hrun.
  repeat head_case Hrun; injection Hrun as <- <-;
    cbn [trace files record print fst snd]; rewrite <- ?app_assoc;
    cbn [app]; eauto.
Qed.

Lemma main_stages (fuel : nat) w :
  main fuel w =
    (console_log ("🌸 Generating design for: " +:+ flowerType argv) ;;
     try_catch
       (console_log "🌐 Navigating to v0.dev..." ;;
        invoke navigation ;;
        console_log "✅ Loaded V0.dev" ;;
        cookies <- loadCookies ;;
        (if 0 <? Z.of_nat (length cookies)
         then invoke (context_addCookies cookies)
         else ret tt) ;;
        (if Z.of_nat (length cookies) =? 0
         then
           needsLogin <- checkAndLogin ;;
           if (needsLogin : bool)
           then console_log "✅ Successfully logged in"
           else ret tt
         else ret tt) ;;
        generate fuel)
       (fun error =>
        console_log ("❌ Error: " +:+ inspect error) ;;
        throw error)) w.
Proof. reflexivity. Qed.

Lemma main_spec (fuel : nat) w :
  rejects env (trace w) navigation = None ->
  let h := trace w ++ [Ev navigation Resolved] in
  let cookies := cookies_on_disk h (files w) in
  exists (read : Reply Cookie) (rest : list (Event Cookie)),
    trace (snd (main fuel w)) = h ++ Ev cookie_read read :: rest
    /\ match cookies with
       | [] =>
           exists (r : Reply Cookie) (d : list (Event Cookie)),
             rest = Ev (page_observe LOGIN_INSTRUCTION) r :: d
       | _ :: _ =>
           exists (r : Reply Cookie) (d : list (Event Cookie)),
             rest = Ev (context_addCookies cookies) r :: d
             /\ existsb is_login_step d = false
       end
    /\ (forall files : gmap string string,
          fst (main fuel w) = Return files ->
          In (Ev submission Resolved) rest).
Proof.
  intros Hgoto h cookies.
  destruct (main fuel w) as [o w'] eqn:Hrun. cbn [fst snd].
  rewrite main_stages in Hrun.
  unfold bind, try_catch, console_log, invoke, ask in Hrun.
  cbn [trace files print record] in Hrun. rewrite Hgoto in Hrun.
  match type of Hrun with
  | context [loadCookies ?w1] =>
      destruct (loadCookies_run w1) as (read & w2 & Hload & Htr2 & Hfi2);
      rewrite Hload in Hrun
  end.
  cbn [trace files print record] in Htr2, Hfi2, Hrun.
  fold h in Htr2, Hrun. fold cookies in Hrun.
  exists read. clearbody cookies. clear Hload.
  destruct cookies as [|c cs].
  - change (0 <? Z.of_nat (length (@nil Cookie))) with false in Hrun.
    change (Z.of_nat (length (@nil Cookie)) =? 0) with true in Hrun.
    unfold ret in Hrun. cbv beta iota in Hrun.
    destruct (checkAndLogin_starts w2) as (r & d1 & Hst).
    destruct (checkAndLogin w2) as [[[]|e|] w3]; cbn [snd] in Hst;
      cbv beta iota in Hrun.
    1, 2: match type of Hrun with
          | context [generate ?f ?w4] =>
              destruct (generate_spec f w4) as (r2 & d2 & Hgen & _ & Hret);
              cbn [trace print] in Hgen;
              destruct (generate f w4) as [[files|e|] w5];
              [ rewrite (Hret files eq_refl) in Hgen | | ]
          end.
    all: cbn [snd throw] in *; injection Hrun as <- <-;
      cbn [trace print]; rewrite ?Hgen, Hst, Htr2, <- ?app_assoc;
      cbn [app]; eexists; (split; [ reflexivity | ]);
      (split; [ eauto | ]); intros files' Hfiles'; try discriminate;
      right; apply in_or_app; right; now left.
  - change (0 <? Z.of_nat (length (c :: cs))) with true in Hrun.
    change (Z.of_nat (length (c :: cs)) =? 0) with false in Hrun.
    unfold ret in Hrun. cbv beta iota in Hrun.
    destruct (rejects env (trace w2) (context_addCookies (c :: cs)))
      as [e|] eqn:Hadd.
    + cbn [throw] in Hrun. injection Hrun as <- <-.
      cbn [trace print record]. rewrite Htr2, <- ?app_assoc. cbn [app].
      eexists; split; [ reflexivity | ].
      split; [ | discriminate ].
      eexists; exists []; split; reflexivity.
    + match type of Hrun with
      | context [generate ?f ?w4] =>
          destruct (generate_spec f w4) as (r2 & d2 & Hgen & Hquiet & Hret);
          cbn [trace record] in Hgen;
          destruct (generate f w4) as [[files|e|] w5];
          [ rewrite (Hret files eq_refl) in Hgen | | ]
      end.
      all: cbn [snd throw] in *; injection Hrun as <- <-;
        cbn [trace print]; rewrite Hgen, Htr2, <- ?app_assoc;
        cbn [app]; eexists; (split; [ reflexivity | ]);
        (split;
         [ eexists; eexists; split; [ reflexivity | ];
           cbn [existsb]; now rewrite quiet_no_login_step
         | ]); intros files' Hfiles'; try discriminate;
        right; now left.
Qed.

Lemma main_returns_navigated (fuel : nat) w (result : gmap string string) :
  fst (main fuel w) = Return result ->
  rejects env (trace w) navigation = None.
Proof.
  destruct (rejects env (trace w) navigation) as [e|] eqn:Hgoto;
    [ | reflexivity ].
  rewrite main_stages.
  unfold bind at 1, console_log at 1, try_catch, bind at 1,
    console_log at 1, bind at 1, invoke, ask.
  cbn [trace files print]. rewrite Hgoto. discriminate.
Qed.



Lemma includes_unfold (s sub : string) :
  JS.includes s sub =
    String.prefix sub s
    || match s with
       | EmptyString => false
       | String _ rest => JS.includes rest sub
       end.
Proof. destruct s; reflexivity. Qed.



(** C6. In a run of [main] that gets past the navigation, let [cookies]
    be the array [loadCookies] returns.  The run makes a step of the
    login flow if and only if [cookies] is empty: when it is empty the
    call after the read of the cookie file is the observation that opens
    [checkAndLogin]; when it is not, that call adds exactly [cookies] to
    the browser context, and no step of the login flow follows. *)
Theorem main_login_iff_no_cookies (fuel : nat) w :
  rejects env (trace w) navigation = None ->
  let h := trace w ++ [Ev navigation Resolved] in
  let cookies := cookies_on_disk h (files w) in
  (forall w1 : World Cookie,
     trace w1 = h -> files w1 = files w ->
     fst (loadCookies w1) = Return cookies)
  /\ exists (read : Reply Cookie) (rest : list (Event Cookie)),
       trace (snd (main fuel w)) = h ++ Ev cookie_read read :: rest
       /\ (existsb is_login_step rest = true <-> cookies = [])
       /\ (cookies = [] ->
           exists r : Reply Cookie,
             head rest = Some (Ev (page_observe LOGIN_INSTRUCTION) r))
       /\ (cookies <> [] ->
           exists r : Reply Cookie,
             head rest = Some (Ev (context_addCookies cookies) r)).
Proof.
  intros Hgoto h cookies. split.
  - intros w1 Htr Hfi.
    destruct (loadCookies_run w1) as (r & w2 & Hload & _).
    rewrite Hload, Htr, Hfi. reflexivity.
  - destruct (main_spec fuel w Hgoto) as (read & rest & Htr & Hcases & _).
    fold h cookies in Htr, Hcases.
    exists read, rest. split; [ exact Htr | ].
    destruct cookies as [|c cs].
    + destruct Hcases as (r & d & ->). cbn. repeat split; eauto.
      intros Hne. now elim Hne.
    + destruct Hcases as (r & d & -> & Hnone). cbn. rewrite Hnone.
      repeat split; try discriminate; eauto.
Qed.


(** * Further properties *)

(** ** A cookie file that does not parse *)

(** X1. A cookie file that is there but does not parse is reported twice:
    [loadCookies] prints the success line after the read, then the parse
    fails and it prints the line for a missing file, and returns the empty
    array. *)
Theorem loadCookies_corrupt_file w (cookiesData : string) (e : Error) :
  rejects env (trace w) cookie_read = None ->
  files w !! COOKIES_PATH = Some cookiesData ->
  JSON_parse cookiesData = inl e ->
  fst (loadCookies w) = Return []
  /\ console (snd (loadCookies w))
       = console w ++ ["🍪 Attempting to load cookies from disk...";
                       "✅ Successfully loaded cookies";
                       "⚠️ No cookies found on disk"]
  /\ trace (snd (loadCookies w))
       = trace w ++ [Ev cookie_read (ResolvedText cookiesData)].
Proof.
  intros Hread Hfile Hparse. unfold cookie_read in Hread.
  unfold loadCookies. run. rewrite Hread. simpl. rewrite Hfile. simpl.
  rewrite Hparse. simpl. rewrite <- !app_assoc. easy.
Qed.

(** ** The paths of checkAndLogin *)

(** X2. When the page shows no login element (an empty observation
    included), [checkAndLogin] returns [false] after that one observation:
    no click, no credentials, no file written. *)
Theorem checkAndLogin_nothing_to_do w :
  rejects env (trace w) (page_observe LOGIN_INSTRUCTION) = None ->
  some_login (observed env (trace w)) = false ->
  checkAndLogin w =
    (Return false,
     record (page_observe LOGIN_INSTRUCTION)
       (ResolvedActions (observed env (trace w))) 0 (files w) w).
Proof.
  intros Hobserve Hnone. unfold checkAndLogin. run.
  rewrite Hobserve. simpl. rewrite Hnone. reflexivity.
Qed.

(** X3. The credentials [checkAndLogin] types are those of the process's
    environment, the e-mail address first and each at most once; it types
    none unless both variables are set and not empty. *)
Theorem checkAndLogin_credentials_from_environment w :
  exists d : list (Event Cookie),
    trace (snd (checkAndLogin w)) = trace w ++ d
    /\ (calls (List.filter is_credentials d) = []
        \/ exists email password : string,
             process_env !! "GITHUB_EMAIL" = Some email
             /\ process_env !! "GITHUB_PASSWORD" = Some password
             /\ email <> EmptyString
             /\ password <> EmptyString
             /\ (calls (List.filter is_credentials d)
                   = [page_act EMAIL_ACTION [("email", email)]]
                 \/ calls (List.filter is_credentials d)
                      = [page_act EMAIL_ACTION [("email", email)];
                         page_act PASSWORD_ACTION [("password", password)]])).
Proof.
  destruct (checkAndLogin w) as [o w'] eqn:Hrun. cbn [fst snd].
  unfold checkAndLogin, saveCookies in Hrun. run_in Hrun.
  repeat head_case Hrun; injection Hrun as <- <-; trace_of_run; cbn;
    try (now left);
    right;
    match goal with
    | H : env_truthy _ && env_truthy _ = true |- _ =>
        apply andb_true_iff in H as [Hemail Hpassword];
        unfold env_truthy in Hemail, Hpassword; unfold env_value;
        destruct (process_env !! "GITHUB_EMAIL") as [email|];
        [ | discriminate ];
        destruct (process_env !! "GITHUB_PASSWORD") as [password|];
        [ | discriminate ];
        exists email, password; cbn;
        repeat split; auto;
        try (intros ->; discriminate)
    end.
Qed.

(** X4. [checkAndLogin] stops at the first call that is rejected and throws
    the error of that call; when no call is rejected it returns, or throws
    'Login failed - still seeing login elements after attempt'. *)
Theorem checkAndLogin_fails_fast w :
  exists d : list (Event Cookie),
    trace (snd (checkAndLogin w)) = trace w ++ d
    /\ match rejections d with
       | [] =>
           fst (checkAndLogin w) = Return true
           \/ fst (checkAndLogin w) = Return false
           \/ fst (checkAndLogin w) = Throw LOGIN_FAILED
       | [e] =>
           fst (checkAndLogin w) = Throw e
           /\ exists c : Call Cookie, last d = Some (Ev c (Rejected e))
       | _ => False
       end.
Proof.
  destruct (checkAndLogin w) as [o w'] eqn:Hrun. cbn [fst snd].
  unfold checkAndLogin, saveCookies in Hrun. run_in Hrun.
  repeat head_case Hrun; injection Hrun as <- <-; trace_of_run; cbn;
    eauto.
Qed.

(** ** A navigation that fails *)

(** X5. When the navigation is rejected [main] throws that error: the
    navigation is its only call, and no file changes. *)
Theorem main_navigation_failure (fuel : nat) w (e : Error) :
  rejects env (trace w) navigation = Some e ->
  fst (main fuel w) = Throw e
  /\ trace (snd (main fuel w)) = trace w ++ [Ev navigation (Rejected e)]
  /\ files (snd (main fuel w)) = files w.
Proof.
  intros Hgoto.
  destruct (main fuel w) as [o w'] eqn:Hrun. cbn [fst snd].
  rewrite main_stages in Hrun.
  unfold bind, try_catch, console_log, invoke, ask in Hrun.
  cbn [trace files print record] in Hrun. rewrite Hgoto in Hrun.
  injection Hrun as <- <-. easy.
Qed.

(** ** The time waitForGeneration takes *)

Lemma waitForGeneration_loop_time (limit : Z) (fuel : nat) (startTime : Z) :
  answers_within limit ->
  forall w,
    startTime <= clock w ->
    clock w - startTime < MAX_GENERATION_TIME + 5000 + 2 * limit ->
    clock w <= clock (snd (waitForGeneration_loop fuel startTime w))
    /\ clock (snd (waitForGeneration_loop fuel startTime w)) - startTime
         < MAX_GENERATION_TIME + 5000 + 2 * limit.
Proof.
  intros Hlimit. induction fuel as [|fuel IH]; intros w Hstart Hnow.
  - cbn. lia.
  - rewrite waitForGeneration_loop_step.
    destruct (clock w - startTime <? MAX_GENERATION_TIME) eqn:Hlt;
      [ | cbn; lia ].
    apply Z.ltb_lt in Hlt. cbn zeta.
    set (w0 := print _ w).
    pose proof (Hlimit (trace w) marker_poll) as Hpoll.
    destruct (rejects env (trace w) marker_poll) as [e|].
    + set (w1 := record marker_poll (Rejected e) 0 (files w) w0).
      pose proof (Hlimit (trace w1) (setTimeout 5000)) as Hsleep.
      set (w2 := record (setTimeout 5000) Resolved 5000 (files w) w1) in *.
      assert (Hclock : clock w2
                = clock w + Z.of_N (latency env (trace w) marker_poll)
                  + 5000 + Z.of_N (latency env (trace w1) (setTimeout 5000)))
        by (unfold w2, w1, w0; cbn; lia).
      destruct (IH w2) as [Hle Hlt']; lia.
    + cbn. lia.
Qed.

(** X6. [waitForGeneration] overruns its deadline by less than one turn of
    its loop: when the environment answers every call within [limit]
    milliseconds, it ends less than 180000 + 5000 + 2 * limit milliseconds
    after it started, whatever its outcome. *)
Theorem waitForGeneration_overrun (limit : Z) (fuel : nat) w :
  answers_within limit ->
  0 <= clock (snd (waitForGeneration fuel w)) - clock w
       < MAX_GENERATION_TIME + 5000 + 2 * limit.
Proof.
  intros Hlimit.
  pose proof (Hlimit [] marker_poll) as Hpos.
  change (waitForGeneration fuel w)
    with (waitForGeneration_loop fuel (clock w) w).
  destruct (waitForGeneration_loop_time limit fuel (clock w) Hlimit w);
    unfold MAX_GENERATION_TIME in *; lia.
Qed.

(** ** The filter of extractCode *)

(** A character that is not white space. *)
Lemma trimStart_ink (s : string) : has_ink (JS.trimStart s) = has_ink s.
Proof.
  induction s as [|c s IH]; [ reflexivity | ].
  cbn [JS.trimStart has_ink].
  destruct (JS.is_space c) eqn:Hc; [ exact IH | ].
  cbn [has_ink]. now rewrite Hc.
Qed.

Lemma rev_app_ink (s acc : string) :
  has_ink (String.rev_app s acc) = has_ink s || has_ink acc.
Proof.
  revert acc. induction s as [|c s IH]; intros acc; [ reflexivity | ].
  cbn [String.rev_app has_ink]. rewrite IH. cbn [has_ink].
  now destruct (JS.is_space c), (has_ink s), (has_ink acc).
Qed.

Lemma trim_ink (s : string) : has_ink (JS.trim s) = has_ink s.
Proof.
  unfold JS.trim, JS.trimEnd, String.rev.
  rewrite rev_app_ink, trimStart_ink, rev_app_ink, trimStart_ink.
  cbn. now rewrite !orb_false_r.
Qed.

Lemma prefix_ink (sub s : string) :
  String.prefix sub s = true -> has_ink sub = true -> has_ink s = true.
Proof.
  revert s. induction sub as [|c sub IH]; intros s Hpre Hink;
    [ discriminate | ].
  destruct s as [|c' s]; [ discriminate | ]. simpl in Hpre.
  destruct (Ascii.ascii_dec c c') as [<-|]; [ | discriminate ].
  cbn [has_ink] in *. destruct (JS.is_space c); cbn [negb orb] in *;
    [ eauto | reflexivity ].
Qed.

Lemma includes_ink (s sub : string) :
  JS.includes s sub = true -> has_ink sub = true -> has_ink s = true.
Proof.
  intros Hinc Hink. induction s as [|c s IH].
  - cbn in Hinc. rewrite orb_false_r in Hinc. eapply prefix_ink; eauto.
  - rewrite includes_unfold in Hinc. apply orb_true_iff in Hinc as [Hpre|Hin].
    + eapply prefix_ink; eauto.
    + cbn [has_ink]. rewrite (IH Hin). apply orb_true_r.
Qed.

(** X7. The blank test of the filter never decides: a clipboard text that
    holds one of the keywords is not blank, so the filter accepts exactly
    the texts that hold a keyword. *)
Theorem filter_is_keyword_test (codeContent : string) :
  accepted codeContent = has_code_keyword codeContent.
Proof.
  unfold accepted. destruct (has_code_keyword codeContent) eqn:Hkey;
    [ | apply andb_false_r ].
  rewrite andb_true_r.
  assert (Hink : has_ink codeContent = true).
  { unfold has_code_keyword in Hkey.
    repeat (apply orb_true_iff in Hkey as [Hkey|Hkey]);
      eapply includes_ink; eauto. }
  unfold non_blank, JS.length. rewrite <- trim_ink in Hink.
  destruct codeContent as [|c s]; [ discriminate | ].
  destruct (JS.trim (String c s)); [ discriminate | ].
  cbn. reflexivity.
Qed.

(** ** The files a computation writes *)

Section WritesOnly.

Context {A : Type} (path : string).

Lemma writes_only_ret (a : A) : writes_only (Cookie := Cookie) path (ret a).
Proof. intros w. now left. Qed.

Lemma writes_only_throw (e : Error) :
  writes_only (Cookie := Cookie) path (throw (A := A) e).
Proof. intros w. now left. Qed.

Lemma writes_only_out_of_fuel :
  writes_only (Cookie := Cookie) path (out_of_fuel (A := A)).
Proof. intros w. now left. Qed.

Lemma writes_only_console_log (line : string) :
  writes_only (Cookie := Cookie) path (console_log line).
Proof. intros w. now left. Qed.

Lemma writes_only_Date_now : writes_only (Cookie := Cookie) path Date_now.
Proof. intros w. now left. Qed.

Lemma writes_only_sleep (ms : Z) :
  writes_only (Cookie := Cookie) path (sleep ms).
Proof. intros w. now left. Qed.

Lemma writes_only_ask (c : Call Cookie) (value : list (Event Cookie) -> A)
    (reply : A -> Reply Cookie) :
  writes_only (Cookie := Cookie) path (ask c value reply).
Proof. intros w. unfold ask. destruct (rejects env (trace w) c); now left. Qed.

Lemma writes_only_readFile (p encoding : string) :
  writes_only (Cookie := Cookie) path (readFile p encoding).
Proof.
  intros w. unfold readFile.
  destruct (rejects env (trace w) _); [ | destruct (files w !! p) ]; now left.
Qed.

Lemma writes_only_writeFile (data : string) :
  writes_only (Cookie := Cookie) path (writeFile path data).
Proof.
  intros w. unfold writeFile.
  destruct (rejects env (trace w) _); [ now left | right; now exists data ].
Qed.

Lemma writes_only_bind {B : Type} (m : M B) (k : B -> M A) :
  writes_only (Cookie := Cookie) path m ->
  (forall b, writes_only (Cookie := Cookie) path (k b)) ->
  writes_only (Cookie := Cookie) path (bind m k).
Proof.
  intros Hm Hk w. unfold bind. specialize (Hm w).
  destruct (m w) as [[b|e|] w1]; cbn [snd] in *; [ | exact Hm | exact Hm ].
  destruct (Hk b w1) as [Hsame|(data & Hdata)].
  - now rewrite Hsame.
  - right. exists data. rewrite Hdata.
    destruct Hm as [->|(data1 & ->)]; [ reflexivity | ].
    apply insert_insert_eq.
Qed.

Lemma writes_only_try_catch (m : M A) (handler : Error -> M A) :
  writes_only (Cookie := Cookie) path m ->
  (forall e, writes_only (Cookie := Cookie) path (handler e)) ->
  writes_only (Cookie := Cookie) path (try_catch m handler).
Proof.
  intros Hm Hh w. unfold try_catch. specialize (Hm w).
  destruct (m w) as [[a|e|] w1]; cbn [snd] in *; [ exact Hm | | exact Hm ].
  destruct (Hh e w1) as [Hsame|(data & Hdata)].
  - now rewrite Hsame.
  - right. exists data. rewrite Hdata.
    destruct Hm as [->|(data1 & ->)]; [ reflexivity | ].
    apply insert_insert_eq.
Qed.

End WritesOnly.

Ltac only_step :=
  first
    [ apply writes_only_bind; [ | intro ]
    | apply writes_only_try_catch; [ | intro ]
    | apply writes_only_ret
    | apply writes_only_throw
    | apply writes_only_out_of_fuel
    | apply writes_only_console_log
    | apply writes_only_Date_now
    | apply writes_only_sleep
    | apply writes_only_ask
    | apply writes_only_readFile
    | apply writes_only_writeFile
    | assumption
    | match goal with
      | |- writes_only _ (match ?x with _ => _ end) => destruct x
      end ].

Lemma waitForGeneration_writes (fuel : nat) :
  writes_only COOKIES_PATH (waitForGeneration fuel).
Proof.
  unfold waitForGeneration. apply writes_only_bind; [ only_step | intros t ].
  induction fuel as [|fuel IH]; cbn [waitForGeneration_loop];
    unfold poll, invoke; repeat only_step.
Qed.

Lemma extractCode_writes (fuel : nat) :
  writes_only COOKIES_PATH (extractCode fuel).
Proof.
  unfold extractCode. apply writes_only_bind; [ only_step | intros _ ].
  generalize 0. induction fuel as [|fuel IH]; intros attempts;
    cbn [extractCode_loop];
    unfold attempt, click_code_tab, readText, act, invoke;
    repeat only_step.
  apply IH.
Qed.

(** X8. [main] writes no file but the cookie file: after a run, whatever
    its outcome, the files are those it found, or those with the contents
    of './cookies.json' replaced. *)
Theorem main_writes_only_cookie_file (fuel : nat) w :
  files (snd (main fuel w)) = files w
  \/ exists data : string,
       files (snd (main fuel w)) = <[COOKIES_PATH := data]> (files w).
Proof.
  revert w. change (writes_only COOKIES_PATH (main fuel)).
  unfold main, loadCookies, parse, checkAndLogin, saveCookies, observe,
    cookies_of_context, act, invoke.
  cbv zeta.
  repeat first
    [ apply waitForGeneration_writes | apply extractCode_writes | only_step ].
Qed.

(** ** The anatomy of a run *)

Lemma calm_quiet (ev : Event Cookie) : calm ev = true -> quiet ev = true.
Proof. unfold calm. now intros [? _]%andb_true_iff. Qed.

Lemma calm_facts (d : list (Event Cookie)) :
  forallb calm d = true ->
  prompts d = 0%nat
  /\ existsb is_failed_write d = false
  /\ existsb is_write d = false.
Proof.
  unfold prompts. induction d as [|ev d IH]; [ easy | ].
  cbn [forallb existsb List.filter]. unfold calm at 1, quiet.
  rewrite !andb_true_iff, !negb_true_iff.
  intros [[[_ Hprompt] Hwrite] Hd]. destruct (IH Hd) as (? & ? & ?).
  rewrite Hprompt, Hwrite. cbn.
  repeat split; auto.
  destruct ev as [[] []]; cbn in *; auto; discriminate.
Qed.

Lemma waitForGeneration_calm (fuel : nat) :
  confined calm (waitForGeneration fuel).
Proof.
  unfold waitForGeneration. apply confined_bind; [ confine | intros startTime ].
  induction fuel as [|fuel IH]; cbn [waitForGeneration_loop];
    unfold poll, invoke; confine.
Qed.

Lemma extractCode_calm (fuel : nat) : confined calm (extractCode fuel).
Proof.
  unfold extractCode. apply confined_bind; [ confine | intros _ ].
  generalize 0. induction fuel as [|fuel IH]; intros attempts;
    cbn [extractCode_loop];
    unfold attempt, click_code_tab, readText, act, invoke; confine.
  apply IH.
Qed.

Lemma waitForGeneration_ends (fuel : nat) w :
  (37 <= fuel)%nat ->
  fst (waitForGeneration fuel w) <> OutOfFuel.
Proof.
  intros Hfuel.
  change (waitForGeneration fuel w)
    with (waitForGeneration_loop fuel (clock w) w).
  destruct (waitForGeneration_loop_spec fuel (clock w) w)
    as (errors & _ & _ & [(Hret & _)|(Hthrow & _)]).
  - unfold MAX_GENERATION_TIME. lia.
  - cbn zeta in Hret. now rewrite Hret.
  - cbn zeta in Hthrow. now rewrite Hthrow.
Qed.

Lemma extractCode_result (fuel : nat) w :
  (6 <= fuel)%nat ->
  match fst (extractCode fuel w) with
  | Return result =>
      exists codeContent : string,
        result = {[ "code.tsx" := codeContent ]}
        /\ accepted codeContent = true
  | Throw _ => True
  | OutOfFuel => False
  end.
Proof.
  intros Hfuel.
  set (w0 := print "🔍 Extracting code..." w).
  change (extractCode fuel w) with (extractCode_loop fuel 0 w0).
  destruct (extractCode_loop_spec fuel 0 w0)
    as (failed & final & _ & _ & _ & Hcases);
    [ unfold maxAttempts; lia | unfold maxAttempts; lia | ].
  cbn zeta in Hcases.
  destruct Hcases as [(codeContent & -> & Hacc & _)|(-> & _)]; eauto.
Qed.

Lemma verdict_after (o : Outcome (gmap string string))
    (before d : list (Event Cookie)) (fs : gmap string string) :
  existsb is_failed_write before = false ->
  verdict o d fs ->
  verdict o (before ++ d) fs.
Proof.
  intros Hbefore. destruct o as [result|e|]; cbn [verdict]; [ | | easy ].
  - intros (codeContent & cookies & pre & -> & Hacc & -> & Hnone & Hfile).
    exists codeContent, cookies, (before ++ pre).
    rewrite existsb_app, Hbefore, Hnone, <- app_assoc. easy.
  - rewrite existsb_app, Hbefore. cbn [orb]. intros Hd Hfailed.
    destruct (Hd Hfailed) as (path & data & Hlast).
    exists path, data. now rewrite last_app, Hlast.
Qed.

Lemma generate_anatomy (fuel : nat) w :
  (37 <= fuel)%nat ->
  exists (r : Reply Cookie) (d : list (Event Cookie)),
    trace (snd (generate fuel w)) = trace w ++ Ev submission r :: d
    /\ prompts d = 0%nat
    /\ verdict (fst (generate fuel w)) (Ev submission r :: d)
         (files (snd (generate fuel w))).
Proof.
  intros Hfuel.
  destruct (generate fuel w) as [o w'] eqn:Hrun. cbn [fst snd].
  unfold generate in Hrun.
  unfold bind, act, invoke, ask, console_log in Hrun.
  fold submission in Hrun.
  destruct (rejects env (trace w) submission) as [e|].
  { cbv beta iota in Hrun. injection Hrun as <- <-. exists (Rejected e), [].
    cbn. repeat split. discriminate. }
  set (w1 := record submission Resolved 0 (files w) w) in Hrun.
  destruct (rejects env (trace w1) (keyboard_press "Enter")) as [e|].
  { cbv beta iota in Hrun. injection Hrun as <- <-. eexists. eexists.
    split; [ cbn; rewrite <- app_assoc; reflexivity | ].
    cbn. repeat split. discriminate. }
  cbv beta iota in Hrun.
  match type of Hrun with
  | context [waitForGeneration fuel ?w3] =>
      destruct (waitForGeneration_calm fuel w3) as (dw & Htrw & Hcalmw);
      pose proof (waitForGeneration_ends fuel w3 Hfuel) as Hends;
      destruct (waitForGeneration fuel w3) as [[b|e|] w4];
      cbn [fst snd trace record print] in Htrw, Hends
  end.
  3: { now elim Hends. }
  2: { cbv beta iota in Hrun. injection Hrun as <- <-. eexists. eexists.
       split; [ rewrite Htrw; unfold w1; cbn [trace record];
                rewrite <- !app_assoc; reflexivity | ].
       destruct (calm_facts dw Hcalmw) as (Hp & Hf & _).
       cbn [app verdict prompts List.filter is_prompt existsb is_failed_write].
       fold (prompts dw). rewrite Hf. cbn. split; [ exact Hp | discriminate ]. }
  match type of Hrun with
  | context [extractCode fuel ?w5] =>
      destruct (extractCode_calm fuel w5) as (dx & Htrx & Hcalmx);
      pose proof (extractCode_result fuel w5 ltac:(lia)) as Hres;
      destruct (extractCode fuel w5) as [[result|e|] w6];
      cbn [fst snd trace record print] in Htrx, Hres
  end.
  3: { now elim Hres. }
  2: { cbv beta iota in Hrun. injection Hrun as <- <-. eexists. eexists.
       split; [ rewrite Htrx, Htrw; unfold w1; cbn [trace record];
                rewrite <- !app_assoc; reflexivity | ].
       destruct (calm_facts dw Hcalmw) as (Hp & Hf & _).
       destruct (calm_facts dx Hcalmx) as (Hp' & Hf' & _).
       cbn [app]. unfold prompts in *.
       cbn [verdict List.filter is_prompt existsb is_failed_write].
       rewrite List.filter_app, length_app, existsb_app, Hp, Hp', Hf, Hf'.
       cbn. split; [ reflexivity | discriminate ]. }
  destruct Hres as (codeContent & -> & Hacc).
  destruct (calm_facts dw Hcalmw) as (Hp & Hf & _).
  destruct (calm_facts dx Hcalmx) as (Hp' & Hf' & _).
  unfold cookies_of_context, saveCookies, ask, bind, writeFile, console_log,
    ret in Hrun.
  cbn [trace files print record] in Hrun.
  assert (Hhistory : trace w6
            = trace w ++ Ev submission Resolved
                :: Ev (keyboard_press "Enter") Resolved :: dw ++ dx).
  { rewrite Htrx, Htrw. unfold w1. cbn [trace record].
    now rewrite <- !app_assoc. }
  destruct (rejects env (trace w6) context_cookies) as [e|].
  { cbv beta iota in Hrun. injection Hrun as <- <-. eexists. eexists.
    split; [ cbn [trace record print]; rewrite Hhistory, <- !app_assoc;
             cbn [app]; rewrite <- !app_assoc; reflexivity | ].
    unfold prompts in *.
    cbn [verdict List.filter is_prompt existsb is_failed_write].
    rewrite !List.filter_app, !length_app, !existsb_app, Hp, Hp', Hf, Hf'.
    cbn. split; [ reflexivity | discriminate ]. }
  cbv beta iota in Hrun.
  match type of Hrun with
  | context [rejects env ?h ?c] => destruct (rejects env h c) as [e|]
  end; cbv beta iota in Hrun; injection Hrun as <- <-; eexists; eexists;
    (split; [ cbn [trace record print]; rewrite Hhistory, <- !app_assoc;
              cbn [app]; rewrite <- !app_assoc; reflexivity | ]);
    unfold prompts in *;
    cbn [verdict List.filter is_prompt existsb is_failed_write];
    rewrite !List.filter_app, !length_app, !existsb_app, Hp, Hp', Hf, Hf';
    cbn [List.filter is_prompt existsb is_failed_write length orb Nat.add app];
    (split; [ reflexivity | ]).
  - intros _. eexists. eexists.
    rewrite !last_cons, !last_app. cbn [last]. reflexivity.
  - exists codeContent. eexists.
    exists (Ev submission Resolved
              :: Ev (keyboard_press "Enter") Resolved :: dw ++ dx).
    split; [ reflexivity | ]. split; [ exact Hacc | ].
    split; [ cbn [app]; now rewrite <- !app_assoc | ].
    split; [ reflexivity | ].
    cbn [files record print trace]. rewrite Hhistory.
    apply lookup_insert_eq.
Qed.

Lemma checkAndLogin_anatomy w :
  exists d : list (Event Cookie),
    trace (snd (checkAndLogin w)) = trace w ++ d
    /\ prompts d = 0%nat
    /\ match fst (checkAndLogin w) with
       | Return _ => existsb is_failed_write d = false
       | Throw e =>
           existsb is_failed_write d = true ->
           exists path data : string,
             last d = Some (Ev (fs_writeFile path data) (Rejected e))
       | OutOfFuel => False
       end.
Proof.
  destruct (checkAndLogin w) as [o w'] eqn:Hrun. cbn [fst snd].
  unfold checkAndLogin, saveCookies in Hrun. run_in Hrun.
  repeat head_case Hrun; injection Hrun as <- <-; trace_of_run; cbn;
    (split; [ reflexivity | ]); try reflexivity; try discriminate;
    intros _; eauto.
Qed.

Lemma main_anatomy (fuel : nat) w :
  (37 <= fuel)%nat ->
  exists d : list (Event Cookie),
    trace (snd (main fuel w)) = trace w ++ d
    /\ (prompts d <= 1)%nat
    /\ verdict (fst (main fuel w)) d (files (snd (main fuel w))).
Proof.
  intros Hfuel.
  destruct (main fuel w) as [o w'] eqn:Hrun. cbn [fst snd].
  rewrite main_stages in Hrun.
  unfold bind, try_catch, console_log, invoke, ask in Hrun.
  cbn [trace files print record] in Hrun.
  destruct (rejects env (trace w) navigation) as [e|].
  { injection Hrun as <- <-. eexists. split; [ reflexivity | ].
    cbn. split; [ lia | discriminate ]. }
  match type of Hrun with
  | context [loadCookies ?w1] =>
      destruct (loadCookies_run w1) as (read & w2 & Hload & Htr2 & _);
      rewrite Hload in Hrun; clear Hload
  end.
  cbn [trace files print record] in Htr2.
  match type of Hrun with
  | context [cookies_on_disk ?h ?fs] =>
      set (cookies := cookies_on_disk h fs) in Hrun; clearbody cookies
  end.
  destruct cookies as [|c cs].
  - change (0 <? Z.of_nat (length (@nil Cookie))) with false in Hrun.
    change (Z.of_nat (length (@nil Cookie)) =? 0) with true in Hrun.
    unfold ret in Hrun. cbv beta iota in Hrun.
    destruct (checkAndLogin_anatomy w2) as (dl & Hst & Hpl & Hvl).
    destruct (checkAndLogin w2) as [[[]|e|] w3]; cbn [fst snd] in Hst, Hvl;
      cbv beta iota in Hrun; [ | | | now elim Hvl ].
    1, 2: match type of Hrun with
          | context [generate ?f ?w4] =>
              destruct (generate_anatomy f w4 Hfuel)
                as (r & d & Hgen & Hpg & Hvg);
              cbn [trace files print] in Hgen;
              destruct (generate f w4) as [[result|e|] w5];
              cbn [fst snd] in Hgen, Hvg; [ | | now elim Hvg ]
          end.
    all: cbn [throw] in Hrun; injection Hrun as <- <-;
      cbn [trace files print].
    1-4: exists ([Ev navigation Resolved; Ev cookie_read read] ++ dl
                   ++ Ev submission r :: d);
      (split; [ rewrite Hgen, Hst, Htr2, <- !app_assoc; reflexivity | ]);
      (split;
       [ unfold prompts in *;
         rewrite !List.filter_app, !length_app, Hpl; cbn;
         destruct (is_prompt (Ev submission r)); cbn; lia
       | ]);
      rewrite app_assoc; apply verdict_after; [ | exact Hvg ];
      rewrite existsb_app, Hvl; reflexivity.
    exists ([Ev navigation Resolved; Ev cookie_read read] ++ dl).
    split; [ rewrite Hst, Htr2, <- !app_assoc; reflexivity | ].
    split; [ unfold prompts in *; rewrite List.filter_app, length_app, Hpl;
             cbn; lia | ].
    cbn [verdict]. rewrite existsb_app. cbn [existsb is_failed_write orb].
    intros Hfailed. destruct (Hvl Hfailed) as (path & data & Hlast).
    exists path, data. now rewrite last_app, Hlast.
  - change (0 <? Z.of_nat (length (c :: cs))) with true in Hrun.
    change (Z.of_nat (length (c :: cs)) =? 0) with false in Hrun.
    unfold ret in Hrun. cbv beta iota in Hrun.
    destruct (rejects env (trace w2) (context_addCookies (c :: cs))) as [e|].
    + cbn [throw] in Hrun. injection Hrun as <- <-.
      cbn [trace files print record]. eexists.
      split; [ rewrite Htr2, <- !app_assoc; reflexivity | ].
      cbn. split; [ lia | discriminate ].
    + match type of Hrun with
      | context [generate ?f ?w4] =>
          destruct (generate_anatomy f w4 Hfuel)
            as (r & d & Hgen & Hpg & Hvg);
          cbn [trace files record] in Hgen;
          destruct (generate f w4) as [[result|e|] w5];
          cbn [fst snd] in Hgen, Hvg; [ | | now elim Hvg ]
      end.
      all: cbn [throw] in Hrun; injection Hrun as <- <-;
        cbn [trace files print];
        exists ([Ev navigation Resolved; Ev cookie_read read;
                 Ev (context_addCookies (c :: cs)) Resolved]
                  ++ Ev submission r :: d);
        (split; [ rewrite Hgen, Htr2, <- !app_assoc; reflexivity | ]);
        (split;
         [ unfold prompts in *; rewrite !List.filter_app, !length_app; cbn;
           destruct (is_prompt (Ev submission r)); cbn; lia
         | ]);
        apply verdict_after; [ reflexivity | exact Hvg ].
Qed.

Lemma prompts_of_submission (d : list (Event Cookie)) :
  In (Ev submission Resolved) d -> (1 <= prompts d)%nat.
Proof.
  unfold prompts. induction d as [|ev d IH]; [ easy | ].
  intros [->|Hin]; cbn [List.filter].
  - cbn. lia.
  - specialize (IH Hin). destruct (is_prompt ev); cbn [length]; lia.
Qed.

(** X9. With 37 units of fuel or more [main] ends, and what it returns is
    nothing but a filtered clipboard text: one entry, under 'code.tsx',
    whose text passes the filter of [extractCode]. *)
Theorem main_returns_filtered_code (extra : nat) w :
  match fst (main (37 + extra) w) with
  | Return result =>
      exists codeContent : string,
        result = {[ "code.tsx" := codeContent ]}
        /\ accepted codeContent = true
  | Throw _ => True
  | OutOfFuel => False
  end.
Proof.
  destruct (main_anatomy (37 + extra) w) as (d & _ & _ & Hverdict);
    [ lia | ].
  destruct (fst (main (37 + extra) w)); cbn [verdict] in Hverdict; auto.
  destruct Hverdict as (codeContent & _ & _ & Hresult & Hacc & _). eauto.
Qed.

(** X10. A run of [main] that returns has saved the cookies the browser
    held at the end: its last two calls are the read of the browser's
    cookies and the write of their JSON text to the cookie file, and the
    cookie file holds that text. *)
Theorem main_saves_latest_cookies (extra : nat) w :
  match fst (main (37 + extra) w) with
  | Return _ =>
      exists (cookies : list Cookie) (before : list (Event Cookie)),
        trace (snd (main (37 + extra) w))
          = trace w ++ before ++
            [Ev context_cookies (ResolvedCookies cookies);
             Ev (fs_writeFile COOKIES_PATH (JSON_stringify cookies 2))
                Resolved]
        /\ files (snd (main (37 + extra) w)) !! COOKIES_PATH
             = Some (JSON_stringify cookies 2)
  | _ => True
  end.
Proof.
  destruct (main_anatomy (37 + extra) w) as (d & Htr & _ & Hverdict);
    [ lia | ].
  destruct (fst (main (37 + extra) w)); cbn [verdict] in Hverdict; auto.
  destruct Hverdict as (_ & cookies & before & _ & _ & -> & _ & Hfile).
  exists cookies, before. split; [ exact Htr | exact Hfile ].
Qed.

(** X11. [main] submits the prompt at most once in a run, and exactly once
    in a run that returns. *)
Theorem main_single_submission (extra : nat) w :
  exists d : list (Event Cookie),
    trace (snd (main (37 + extra) w)) = trace w ++ d
    /\ (prompts d <= 1)%nat
    /\ match fst (main (37 + extra) w) with
       | Return _ => prompts d = 1%nat
       | _ => True
       end.
Proof.
  destruct (main_anatomy (37 + extra) w) as (d & Htr & Hle & _); [ lia | ].
  exists d. split; [ exact Htr | ]. split; [ exact Hle | ].
  destruct (fst (main (37 + extra) w)) as [result| |] eqn:Hret; auto.
  pose proof (main_returns_navigated _ w result Hret) as Hgoto.
  destruct (main_spec (37 + extra) w Hgoto) as (read & rest & Htr' & _ & Hin).
  rewrite Htr', <- app_assoc in Htr. apply app_inv_head in Htr. subst d.
  specialize (Hin result Hret).
  assert (1 <= prompts ([Ev navigation Resolved] ++ Ev cookie_read read :: rest))%nat.
  { apply prompts_of_submission. apply in_or_app. right. now right. }
  lia.
Qed.

(** X12. A refused write ends the run: when the file system rejects a write
    of the cookie file, [main] throws the error of that rejection, and the
    refused write is its last call, also when the code had been extracted
    by then. *)
Theorem main_refused_write (extra : nat) w :
  exists d : list (Event Cookie),
    trace (snd (main (37 + extra) w)) = trace w ++ d
    /\ (existsb is_failed_write d = true ->
        exists (e : Error) (path data : string),
          fst (main (37 + extra) w) = Throw e
          /\ last d = Some (Ev (fs_writeFile path data) (Rejected e))).
Proof.
  destruct (main_anatomy (37 + extra) w) as (d & Htr & _ & Hverdict);
    [ lia | ].
  exists d. split; [ exact Htr | ]. intros Hfailed.
  destruct (fst (main (37 + extra) w)) as [result|e|];
    cbn [verdict] in Hverdict.
  - destruct Hverdict as (_ & _ & _ & _ & _ & _ & Hnone & _). congruence.
  - destruct (Hverdict Hfailed) as (path & data & Hlast). eauto.
  - contradiction.
Qed.

(** X13. A run of [main] on a machine whose cookie file holds the text of a
    non-empty JSON-serializable array skips the login: when the navigation
    and the read go through, the call after the read adds that array to
    the browser context, and no step of the login flow follows. *)
Theorem main_resumes_session (fuel : nat) w (cookies : list Cookie) :
  cookies <> [] ->
  JSON_serializable cookies ->
  files w !! COOKIES_PATH = Some (JSON_stringify cookies 2) ->
  rejects env (trace w) navigation = None ->
  rejects env (trace w ++ [Ev navigation Resolved]) cookie_read = None ->
  exists (read r : Reply Cookie) (rest : list (Event Cookie)),
    trace (snd (main fuel w))
      = trace w ++
        Ev navigation Resolved :: Ev cookie_read read
          :: Ev (context_addCookies cookies) r :: rest
    /\ existsb is_login_step rest = false.
Proof.
  intros Hne Hjson Hfile Hgoto Hread.
  destruct (main_spec fuel w Hgoto) as (read & rest & Htr & Hcases & _).
  unfold cookies_on_disk in Hcases. rewrite Hread, Hfile, Hjson in Hcases.
  destruct cookies as [|c cs]; [ now elim Hne | ].
  destruct Hcases as (r & d & -> & Hnone).
  exists read, r, d. split; [ | exact Hnone ].
  rewrite Htr, <- app_assoc. reflexivity.
Qed.

(** ** The time extractCode takes *)

Ltac bound_latencies Hlimit :=
  repeat match goal with
         | |- context [latency env ?h ?c] =>
             let H := fresh "Hlat" in
             pose proof (Hlimit h c) as H;
             generalize dependent (latency env h c); intros
         end.

(** As [head_case], through the tests that are applied to a world. *)
Ltac deepest x k :=
  lazymatch x with
  | match ?y with _ => _ end => deepest y k
  | (match ?y with _ => _ end) _ => deepest y k
  | _ => k x
  end.

Ltac decide_head H :=
  let decide_on x :=
    deepest x ltac:(fun y =>
      let E := fresh "Hcase" in
      destruct y eqn:E; simpl in H) in
  lazymatch type of H with
  | (match ?x with _ => _ end) = _ => decide_on x
  | (match ?x with _ => _ end) _ = _ => decide_on x
  end.

Lemma attempt_time (limit : Z) (attempts : Z) w :
  answers_within limit ->
  clock w <= clock (snd (attempt attempts w)) <= clock w + 500 + 7 * limit.
Proof.
  intros Hlimit. pose proof (Hlimit [] marker_poll) as Hpos.
  destruct (attempt attempts w) as [o w'] eqn:Hrun. cbn [fst snd].
  unfold attempt, click_code_tab in Hrun. run_in Hrun.
  repeat decide_head Hrun; injection Hrun as <- <-;
    cbn [clock record print trace]; bound_latencies Hlimit; lia.
Qed.

Lemma extractCode_loop_time (limit : Z) (fuel : nat) :
  answers_within limit ->
  forall (attempts : Z) w,
    0 <= attempts <= maxAttempts ->
    let w' := snd (extractCode_loop fuel attempts w) in
    clock w <= clock w'
      <= clock w + (maxAttempts - attempts) * (2500 + 8 * limit)
    /\ match fst (extractCode_loop fuel attempts w) with
       | Throw _ => clock w + (maxAttempts - attempts) * 2000 <= clock w'
       | _ => True
       end.
Proof.
  intros Hlimit.
  assert (Hpos : 0 <= limit).
  { pose proof (Hlimit [] marker_poll).
    pose proof (N2Z.is_nonneg (latency env [] marker_poll)). lia. }
  unfold maxAttempts.
  induction fuel as [|fuel IH]; intros attempts w Hrange; cbn zeta.
  - cbn. nia.
  - rewrite extractCode_loop_step. unfold maxAttempts.
    destruct (attempts <? 5) eqn:Hlt.
    + apply Z.ltb_lt in Hlt.
      pose proof (attempt_time limit attempts w Hlimit) as Htime.
      destruct (attempt_spec attempts w)
        as (clicks & rest & _ & _ & _ & _ & Hres).
      revert Htime Hres.
      destruct (attempt attempts w) as [o w1]. cbn [fst snd].
      intros Htime Hres.
      destruct o as [[code|]|err|]; try contradiction; cbn [fst snd].
      * split; [ nia | exact I ].
      * set (w2 := record (setTimeout 2000) Resolved 2000 (files w1) w1).
        pose proof (Hlimit (trace w1) (setTimeout 2000)) as Hsleep.
        pose proof (N2Z.is_nonneg (latency env (trace w1) (setTimeout 2000)))
          as Hwait.
        assert (Hclock : clock w2
                  = clock w1 + 2000
                    + Z.of_N (latency env (trace w1) (setTimeout 2000)))
          by reflexivity.
        destruct (IH (attempts + 1) w2) as [Hbound Hthrow]; [ lia | ].
        split; [ nia | ].
        destruct (fst (extractCode_loop fuel (attempts + 1) w2)); auto.
        nia.
    + apply Z.ltb_ge in Hlt. cbn [fst snd]. split; nia.
Qed.

(** X14. [extractCode] takes bounded time: when the environment answers
    every call within [limit] milliseconds it ends within
    5 * (2500 + 8 * limit) milliseconds, and when it gives up at least
    10000 milliseconds have passed. *)
Theorem extractCode_time (limit : Z) (fuel : nat) w :
  answers_within limit ->
  0 <= clock (snd (extractCode fuel w)) - clock w
       <= 5 * (2500 + 8 * limit)
  /\ match fst (extractCode fuel w) with
     | Throw _ => 10000 <= clock (snd (extractCode fuel w)) - clock w
     | _ => True
     end.
Proof.
  intros Hlimit.
  set (w0 := print "🔍 Extracting code..." w).
  change (extractCode fuel w) with (extractCode_loop fuel 0 w0).
  destruct (extractCode_loop_time limit fuel Hlimit 0 w0) as [Hbound Hthrow];
    [ unfold maxAttempts; lia | ].
  cbn zeta in Hbound, Hthrow. change (clock w0) with (clock w) in *.
  unfold maxAttempts in *.
  split; [ lia | ].
  destruct (fst (extractCode_loop fuel 0 w0)); auto. lia.
Qed.

(** ** Errors on the console *)

Lemma try_catch_reports {A : Type} (m : M A) (line : Error -> string) w :
  let r := try_catch m (fun error => console_log (line error) ;; throw error) w
  in match fst r with
     | Throw e => last (console (snd r)) = Some (line e)
     | _ => True
     end.
Proof.
  unfold try_catch. destruct (m w) as [[a|e|] w1]; cbn; auto.
  apply last_snoc.
Qed.

(** X15. [main] reports every error it throws: whenever a run ends with an
    error, the last entry on the console is that of the
    [console.error] of its handler, the label '❌ Error:' followed by
    that very error as the console prints it. *)
Theorem main_reports_errors (fuel : nat) w :
  match fst (main fuel w) with
  | Throw e =>
      last (console (snd (main fuel w))) = Some ("❌ Error: " +:+ inspect e)
  | _ => True
  end.
Proof.
  rewrite main_stages.
  match goal with
  | |- context [try_catch ?m ?h] => set (body := m)
  end.
  unfold bind at 1, console_log at 1.
  apply (try_catch_reports body (fun e => "❌ Error: " +:+ inspect e)).
Qed.

End Properties.

(** * Runs on the sample host *)

(** A first run of [main]: no cookie file, so it logs in, saves the
    cookies, and returns the card under 'code.tsx'. *)
Example first_run_returns_card :
  fst (main (host := Sample.rose) 37 Sample.start)
    = Return {[ "code.tsx" := Sample.card ]}
  /\ files (snd (main (host := Sample.rose) 37 Sample.start)) !! COOKIES_PATH
       = Some (Sample.stringify (Sample.jar Sample.smooth) 2).
Proof. split; vm_compute; reflexivity. Qed.

(** A second run, on the machine the first run left: the cookie file is
    there, so the cookies go into the browser context and the prompt is
    submitted next, with no step of the login flow. *)
Example second_run_skips_login :
  take 4 (drop (length (trace (snd (main (host := Sample.rose) 37 Sample.start))))
            (trace (snd (main (host := Sample.rose) 37
                           (snd (main (host := Sample.rose) 37 Sample.start))))))
    = [Ev navigation Resolved;
       Ev cookie_read
          (ResolvedText (Sample.stringify (Sample.jar Sample.smooth) 2));
       Ev (context_addCookies (Sample.jar Sample.smooth)) Resolved;
       Ev (submission (host := Sample.rose)) Resolved].
Proof. vm_compute. reflexivity. Qed.

(** The two verdicts of [checkAndLogin] after a submission of the
    credentials: the login took and the cookies are saved, or the page
    still asks for a login and nothing is written. *)
Example login_verdicts :
  fst (checkAndLogin (host := Sample.rose) Sample.start) = Return true
  /\ files (snd (checkAndLogin (host := Sample.rose) Sample.start))
       !! COOKIES_PATH
       = Some (Sample.stringify (Sample.jar Sample.smooth) 2)
  /\ fst (checkAndLogin (host := Sample.stuck) Sample.start)
       = Throw LOGIN_FAILED
  /\ files (snd (checkAndLogin (host := Sample.stuck) Sample.start))
       !! COOKIES_PATH = None.
Proof. repeat split; vm_compute; reflexivity. Qed.

(** The calls of the login that takes: no call is rejected, and the
    cookies saved are those of the browser. *)
Example login_calls :
  trace (snd (checkAndLogin (host := Sample.rose) Sample.start))
    = seen Sample.login_page
      :: login_steps (host := Sample.rose)
      ++ seen Sample.home_page
      :: saved_jar (host := Sample.rose) (Sample.jar Sample.smooth)
  /\ rejections
       (trace (snd (checkAndLogin (host := Sample.rose) Sample.start))) = [].
Proof. split; vm_compute; reflexivity. Qed.

(** The loops run out of fuel one unit below the bounds of C3 and C4, when
    no poll and no attempt succeeds. *)
Example fuel_bounds_are_tight :
  fst (waitForGeneration (host := Sample.never) 36 Sample.start) = OutOfFuel
  /\ fst (waitForGeneration (host := Sample.never) 37 Sample.start)
       = Throw GENERATION_TIMED_OUT
  /\ fst (extractCode (host := Sample.never) 5 Sample.start) = OutOfFuel
  /\ fst (extractCode (host := Sample.never) 6 Sample.start)
       = Throw EXTRACT_FAILED.
Proof. repeat split; vm_compute; reflexivity. Qed.

(** C3 as the claim words it does not hold: the deadline is read only
    before a poll, so a run in which 180000 ms have gone by without the
    marker need not throw.  On the host [Sample.late] twelve polls miss
    the marker; the thirteenth starts at 179976 ms, is still waiting when
    180000 ms have elapsed, and finds the marker at 184975 ms:
    [waitForGeneration] returns [true] then, and does not throw
    'Generation timed out'. *)
Lemma waitForGeneration_returns_after_deadline :
  trace (snd Sample.late_wait)
    = Sample.late_misses ++ [Ev marker_poll Resolved]
  /\ clock (snd Sample.late_wait) - clock Sample.start = 184975
  /\ clock (snd Sample.late_wait)
       - Z.of_N (latency (env (Host := Sample.late)) Sample.late_misses
                   marker_poll)
       - clock Sample.start = 179976
  /\ MAX_GENERATION_TIME < clock (snd Sample.late_wait) - clock Sample.start
  /\ fst Sample.late_wait = Return true
  /\ fst Sample.late_wait <> Throw GENERATION_TIMED_OUT.
Proof.
  repeat split; try (vm_compute; reflexivity).
  vm_compute. discriminate.
Qed.

Lemma saveCookies_loadCookies_roundtrip_witness :
  JSON_serializable (host := Sample.rose) [Sample.session_cookie]
  /\ rejects (env (Host := Sample.rose)) (trace Sample.start)
       (fs_writeFile COOKIES_PATH (Sample.stringify [Sample.session_cookie] 2))
       = None
  /\ rejects (env (Host := Sample.rose)) (trace Sample.saved)
       (fs_readFile COOKIES_PATH "utf-8") = None
  /\ fst (loadCookies (host := Sample.rose) Sample.saved)
       = Return [Sample.session_cookie].
Proof.
  assert (Hjson : JSON_serializable (host := Sample.rose)
                    [Sample.session_cookie])
    by (vm_compute; reflexivity).
  assert (Hwrite : rejects (env (Host := Sample.rose)) (trace Sample.start)
                     (fs_writeFile COOKIES_PATH
                        (Sample.stringify [Sample.session_cookie] 2)) = None)
    by (vm_compute; reflexivity).
  assert (Hread : rejects (env (Host := Sample.rose)) (trace Sample.saved)
                    (fs_readFile COOKIES_PATH "utf-8") = None)
    by (vm_compute; reflexivity).
  split; [ exact Hjson | ]. split; [ exact Hwrite | ].
  split; [ exact Hread | ].
  apply (saveCookies_loadCookies_roundtrip (host := Sample.rose)
           [Sample.session_cookie] Sample.start Sample.saved
           Hjson Hwrite eq_refl Hread).
Defined.

Lemma main_login_iff_no_cookies_witness :
  rejects (env (Host := Sample.rose)) (trace Sample.start) navigation = None
  /\ cookies_on_disk (host := Sample.rose) [Ev navigation Resolved]
       (files Sample.start) = []
  /\ exists (read : Reply Sample.json) (rest : list (Event Sample.json)),
       trace (snd (main (host := Sample.rose) 37 Sample.start))
         = [Ev navigation Resolved] ++ Ev cookie_read read :: rest
       /\ existsb is_login_step rest = true.
Proof.
  assert (Hgoto : rejects (env (Host := Sample.rose)) (trace Sample.start)
                    navigation = None)
    by (vm_compute; reflexivity).
  split; [ exact Hgoto | ]. split; [ vm_compute; reflexivity | ].
  destruct (main_login_iff_no_cookies (host := Sample.rose) 37 Sample.start
              Hgoto) as (_ & read & rest & Htr & Hiff & _).
  exists read, rest. split; [ exact Htr | ].
  apply Hiff. vm_compute. reflexivity.
Defined.

Lemma checkAndLogin_missing_credentials_witness :
  rejects (env (Host := Sample.anonymous)) (trace Sample.start)
    (page_observe LOGIN_INSTRUCTION) = None
  /\ some_login (observed (env (Host := Sample.anonymous)) (trace Sample.start))
       = true
  /\ process_env (Host := Sample.anonymous) !! "GITHUB_EMAIL" = None
  /\ rejects (env (Host := Sample.anonymous)) [Sample.seen_login] sign_in_click = None
  /\ rejects (env (Host := Sample.anonymous))
       [Sample.seen_login; Ev sign_in_click Resolved] github_click = None
  /\ fst (checkAndLogin (host := Sample.anonymous) Sample.start) = Return false.
Proof.
  assert (Hobserve : rejects (env (Host := Sample.anonymous))
                       (trace Sample.start) (page_observe LOGIN_INSTRUCTION)
                       = None)
    by (vm_compute; reflexivity).
  assert (Hlogin : some_login (observed (env (Host := Sample.anonymous))
                                 (trace Sample.start)) = true)
    by (vm_compute; reflexivity).
  assert (Hunset : process_env (Host := Sample.anonymous) !! "GITHUB_EMAIL"
                     = None)
    by (vm_compute; reflexivity).
  assert (Hclick : rejects (env (Host := Sample.anonymous)) [Sample.seen_login]
                     sign_in_click = None)
    by (vm_compute; reflexivity).
  assert (Hgithub : rejects (env (Host := Sample.anonymous))
                      [Sample.seen_login; Ev sign_in_click Resolved] github_click = None)
    by (vm_compute; reflexivity).
  split; [ exact Hobserve | ]. split; [ exact Hlogin | ].
  split; [ exact Hunset | ]. split; [ exact Hclick | ].
  split; [ exact Hgithub | ].
  apply (checkAndLogin_missing_credentials (host := Sample.anonymous)
           Sample.start Hobserve Hlogin (or_introl Hunset) Hclick Hgithub).
Defined.

Lemma loadCookies_corrupt_file_witness :
  rejects (env (Host := Sample.rose)) (trace Sample.corrupted) cookie_read
    = None
  /\ files Sample.corrupted !! COOKIES_PATH = Some "[{"
  /\ JSON_parse (Host := Sample.rose) "[{"
       = inl (mkError "SyntaxError: Unexpected token in JSON")
  /\ fst (loadCookies (host := Sample.rose) Sample.corrupted) = Return []
  /\ console (snd (loadCookies (host := Sample.rose) Sample.corrupted))
       = console Sample.corrupted
         ++ ["🍪 Attempting to load cookies from disk...";
             "✅ Successfully loaded cookies";
             "⚠️ No cookies found on disk"].
Proof.
  assert (Hread : rejects (env (Host := Sample.rose)) (trace Sample.corrupted)
                    cookie_read = None)
    by (vm_compute; reflexivity).
  assert (Hfile : files Sample.corrupted !! COOKIES_PATH = Some "[{")
    by (vm_compute; reflexivity).
  assert (Hparse : JSON_parse (Host := Sample.rose) "[{"
                     = inl (mkError "SyntaxError: Unexpected token in JSON"))
    by (vm_compute; reflexivity).
  split; [ exact Hread | ]. split; [ exact Hfile | ].
  split; [ exact Hparse | ].
  destruct (loadCookies_corrupt_file (host := Sample.rose) Sample.corrupted
              "[{" _ Hread Hfile Hparse) as (Hret & Hlines & _).
  split; [ exact Hret | exact Hlines ].
Defined.

Lemma checkAndLogin_nothing_to_do_witness :
  rejects (env (Host := Sample.returning)) (trace Sample.start)
    (page_observe LOGIN_INSTRUCTION) = None
  /\ some_login (observed (env (Host := Sample.returning))
                   (trace Sample.start)) = false
  /\ fst (checkAndLogin (host := Sample.returning) Sample.start)
       = Return false.
Proof.
  assert (Hobserve : rejects (env (Host := Sample.returning))
                       (trace Sample.start) (page_observe LOGIN_INSTRUCTION)
                       = None)
    by (vm_compute; reflexivity).
  assert (Hnone : some_login (observed (env (Host := Sample.returning))
                                (trace Sample.start)) = false)
    by (vm_compute; reflexivity).
  split; [ exact Hobserve | ]. split; [ exact Hnone | ].
  exact (f_equal fst
           (checkAndLogin_nothing_to_do (host := Sample.returning)
              Sample.start Hobserve Hnone)).
Defined.

Lemma main_navigation_failure_witness :
  rejects (env (Host := Sample.never)) (trace Sample.start) navigation
    = Some (mkError "net::ERR_FAILED")
  /\ fst (main (host := Sample.never) 37 Sample.start)
       = Throw (mkError "net::ERR_FAILED")
  /\ trace (snd (main (host := Sample.never) 37 Sample.start))
       = trace Sample.start
         ++ [Ev navigation (Rejected (mkError "net::ERR_FAILED"))]
  /\ files (snd (main (host := Sample.never) 37 Sample.start))
       = files Sample.start.
Proof.
  assert (Hgoto : rejects (env (Host := Sample.never)) (trace Sample.start)
                    navigation = Some (mkError "net::ERR_FAILED"))
    by (vm_compute; reflexivity).
  split; [ exact Hgoto | ].
  exact (main_navigation_failure (host := Sample.never) 37 Sample.start
           _ Hgoto).
Defined.

Lemma waitForGeneration_overrun_witness :
  answers_within (host := Sample.rose) 40
  /\ 0 <= clock (snd (waitForGeneration (host := Sample.rose) 37
                        Sample.start))
          - clock Sample.start
       < MAX_GENERATION_TIME + 5000 + 2 * 40.
Proof.
  assert (Hlimit : answers_within (host := Sample.rose) 40)
    by (intros h c; simpl; lia).
  split; [ exact Hlimit | ].
  exact (waitForGeneration_overrun (host := Sample.rose) 40 37 Sample.start
           Hlimit).
Defined.

Lemma main_resumes_session_witness :
  [Sample.session_cookie] <> []
  /\ JSON_serializable (host := Sample.rose) [Sample.session_cookie]
  /\ files Sample.saved !! COOKIES_PATH
       = Some (JSON_stringify (Host := Sample.rose)
                 [Sample.session_cookie] 2)
  /\ rejects (env (Host := Sample.rose)) (trace Sample.saved) navigation
       = None
  /\ rejects (env (Host := Sample.rose))
       (trace Sample.saved ++ [Ev navigation Resolved]) cookie_read = None
  /\ exists (read r : Reply Sample.json) (rest : list (Event Sample.json)),
       trace (snd (main (host := Sample.rose) 37 Sample.saved))
         = trace Sample.saved ++
           Ev navigation Resolved :: Ev cookie_read read
             :: Ev (context_addCookies [Sample.session_cookie]) r :: rest
       /\ existsb is_login_step rest = false.
Proof.
  assert (Hne : [Sample.session_cookie] <> []) by discriminate.
  assert (Hjson : JSON_serializable (host := Sample.rose)
                    [Sample.session_cookie])
    by (vm_compute; reflexivity).
  assert (Hfile : files Sample.saved !! COOKIES_PATH
                    = Some (JSON_stringify (Host := Sample.rose)
                              [Sample.session_cookie] 2))
    by (vm_compute; reflexivity).
  assert (Hgoto : rejects (env (Host := Sample.rose)) (trace Sample.saved)
                    navigation = None)
    by (vm_compute; reflexivity).
  assert (Hread : rejects (env (Host := Sample.rose))
                    (trace Sample.saved ++ [Ev navigation Resolved])
                    cookie_read = None)
    by (vm_compute; reflexivity).
  split; [ exact Hne | ]. split; [ exact Hjson | ].
  split; [ exact Hfile | ]. split; [ exact Hgoto | ].
  split; [ exact Hread | ].
  exact (main_resumes_session (host := Sample.rose) 37 Sample.saved
           [Sample.session_cookie] Hne Hjson Hfile Hgoto Hread).
Defined.

Lemma extractCode_time_witness :
  answers_within (host := Sample.never) 0
  /\ 0 <= clock (snd (extractCode (host := Sample.never) 6 Sample.start))
          - clock Sample.start
       <= 5 * (2500 + 8 * 0)
  /\ match fst (extractCode (host := Sample.never) 6 Sample.start) with
     | Throw _ =>
         10000 <= clock (snd (extractCode (host := Sample.never) 6
                                Sample.start))
                  - clock Sample.start
     | _ => True
     end.
Proof.
  assert (Hlimit : answers_within (host := Sample.never) 0)
    by (intros h c; simpl; lia).
  split; [ exact Hlimit | ].
  exact (extractCode_time (host := Sample.never) 0 6 Sample.start Hlimit).
Defined.
